(** * Embedding Inspector: resolver, inspector, mixer and mini-tokenizer

    Shallow embedding of [scripts/embedding_inspector.py].

    Conventions of the model.
    - Python exceptions are values of [exn]; a call that may raise returns an
      [outcome].  The bare [except:] clauses of the source become matches
      that swallow every [Raise].
    - float32 tensor components are idealised as exact rationals ([Qc]); a
      2-D tensor is its column count together with its list of rows.
    - The host application (tokenizer, embedding matrix, loaded-embeddings
      dictionary, embeddings directory) is an explicit [host] record that
      every operation receives and, for [do_save], returns.
    - Library kernels whose result the source only passes along (checksum,
      UTF-8 decoding, printing of floats and tensors, cosine similarity,
      the directory re-scan) are the fields of the [Kernels] class. *)

From Stdlib Require Import ZArith QArith Qcanon String Ascii List Lia Sorted.
From Stdlib Require Import Decimal DecimalString DecimalPos.
From stdpp Require Import base option list numbers gmap strings.

Local Open Scope string_scope.
Local Open Scope Z_scope.

(** ** Exceptions and outcomes *)

Inductive exn : Type :=
  | AttributeError
  | TypeError
  | IndexError
  | KeyError
  | RuntimeError.

Inductive outcome (A : Type) : Type :=
  | Ok (a : A)
  | Raise (e : exn).
Arguments Ok {A} a.
Arguments Raise {A} e.

(** Sequencing: an exception of the first computation ends the call. *)
Definition and_then {A B} (c : outcome A) (f : A -> outcome B) : outcome B :=
  match c with
  | Ok a => f a
  | Raise e => Raise e
  end.

Notation "'let!' x ':=' c 'in' k" := (and_then c (fun x => k))
  (at level 10, x name, c at level 100, k at level 200).

Definition raises {A} (c : outcome A) : bool :=
  match c with Ok _ => false | Raise _ => true end.

(** ** Python string helpers *)

Module Py.

(** Characters removed by [str.strip()] (the ASCII part of Python's
    whitespace set: TAB..CR, FS..US and SPACE). *)
Definition is_space (c : ascii) : bool :=
  let n := nat_of_ascii c in
  ((9 <=? n)%nat && (n <=? 13)%nat) || ((28 <=? n)%nat && (n <=? 32)%nat).

Fixpoint lstrip (s : string) : string :=
  match s with
  | EmptyString => EmptyString
  | String c r => if is_space c then lstrip r else s
  end.

Definition rstrip (s : string) : string := String.rev (lstrip (String.rev s)).

Definition strip (s : string) : string := rstrip (lstrip s).

(** [text.startswith('#')] together with the slice [text[1:]]. *)
Definition after_hash (text : string) : option string :=
  match text with
  | String "#" r => Some r
  | _ => None
  end.

(** The value of an ASCII digit.  Strings are byte strings here: the
    Unicode decimal digits that [int()] reads as well, and the Unicode
    whitespace that [strip()] removes as well, are not represented. *)
Definition digit_of (c : ascii) : option Z :=
  let n := nat_of_ascii c in
  if ((48 <=? n)%nat && (n <=? 57)%nat)%bool then Some (Z.of_nat n - 48) else None.

(** Digits of an integer literal as [int()] reads them: at least one digit,
    single underscores allowed between digits only.  [prev] records that the
    previous character was a digit. *)
Fixpoint int_digits (s : string) (acc : Z) (prev : bool) : option Z :=
  match s with
  | EmptyString => if prev then Some acc else None
  | String c r =>
      match digit_of c with
      | Some d => int_digits r (acc * 10 + d) true
      | None =>
          if (Ascii.eqb c "_" && prev)%bool then
            match r with
            | EmptyString => None
            | _ => int_digits r acc false
            end
          else None
      end
  end.

(** [int(s)]: surrounding whitespace, an optional sign, then digits.
    [None] stands for the [ValueError] of the source. *)
Definition int (s : string) : option Z :=
  match strip s with
  | String "-" r => Z.opp <$> int_digits r 0 false
  | String "+" r => int_digits r 0 false
  | t => int_digits t 0 false
  end.

(** [str(i)] for an integer. *)
Definition str (i : Z) : string := NilZero.string_of_int (Z.to_int i).

(** [sep.join(l)]. *)
Fixpoint join (sep : string) (l : list string) : string :=
  match l with
  | [] => EmptyString
  | [x] => x
  | x :: r => x +:+ sep +:+ join sep r
  end.

(** [str(x)] for an optional value: [None] prints as the word None. *)
Definition str_opt {A} (f : A -> string) (x : option A) : string :=
  match x with
  | Some a => f a
  | None => "None"
  end.

End Py.

(** ** Tensors *)

Record tensor : Type := Tensor {
  cols : nat;               (* shape[1] *)
  rows : list (list Qc)     (* shape[0] rows *)
}.

Definition shape0 (t : tensor) : nat := length (rows t).
Definition shape1 (t : tensor) : nat := cols t.

Definition well_shaped (t : tensor) : Prop :=
  Forall (fun r => length r = cols t) (rows t).

(** [torch.zeros(r, c)] *)
Definition zeros (r c : nat) : tensor :=
  Tensor c (replicate r (replicate c 0%Qc)).

(** [row.unsqueeze(0)] *)
Definition unsqueeze (row : list Qc) : tensor := Tensor (length row) [row].

(** [t * w] for a scalar [w] *)
Definition scale (t : tensor) (w : Qc) : tensor :=
  Tensor (cols t) (map (map (fun x => (x * w)%Qc)) (rows t)).

(** [torch.cat([a, b])] along the row axis; widths must agree. *)
Definition cat (a b : tensor) : outcome tensor :=
  if decide (cols a = cols b) then Ok (Tensor (cols a) (rows a ++ rows b))
  else Raise RuntimeError.

(** [a += b] for tensors of one shape. *)
Definition add (a b : tensor) : outcome tensor :=
  if decide (cols a = cols b /\ shape0 a = shape0 b) then
    Ok (Tensor (cols a) (zip_with (zip_with Qcplus) (rows a) (rows b)))
  else Raise RuntimeError.

(** [t[i]] on the row axis, negative indices counting from the end. *)
Definition index (t : tensor) (i : Z) : outcome (list Qc) :=
  let n := Z.of_nat (shape0 t) in
  let j := if i <? 0 then i + n else i in
  if (0 <=? j) && (j <? n) then
    match rows t !! Z.to_nat j with
    | Some r => Ok r
    | None => Raise IndexError
    end
  else Raise IndexError.

(** ** Host data *)

(** The host's [Embedding] class (modules.textual_inversion). *)
Record Embedding : Type := {
  name : string;
  vec : tensor;
  step : option Z;
  sd_checkpoint : option string;
  sd_checkpoint_name : option string
}.

(** [Embedding(vec, name)] *)
Definition new_Embedding (v : tensor) (n : string) : Embedding :=
  {| name := n; vec := v; step := None;
     sd_checkpoint := None; sd_checkpoint_name := None |}.

Definition set_step (e : Embedding) (s : Z) : Embedding :=
  {| name := name e; vec := vec e; step := Some s;
     sd_checkpoint := sd_checkpoint e;
     sd_checkpoint_name := sd_checkpoint_name e |}.

Inductive tokenizer_class : Type :=
  | CLIPTokenizer
  | SimpleTokenizer
  | UnknownTokenizer.

(** A host tokenizer: its class, its two entry points and its byte-level
    vocabulary tables.  Token strings are sequences of code points. *)
Record tokenizer : Type := {
  tok_class : tokenizer_class;
  input_ids : string -> list Z;     (* tokenizer(text, ...)["input_ids"] *)
  encode : string -> list Z;        (* tokenizer.encode(text) *)
  decoder : gmap Z (list N);
  byte_decoder : gmap N Byte.byte
}.

(** [shared.sd_model.cond_stage_model.wrapped], by class name, with the
    token embedding matrix it carries. *)
Inductive embedder : Type :=
  | FrozenCLIPEmbedder (tok : tokenizer) (weight : tensor)
  | FrozenOpenCLIPEmbedder (weight : tensor)
  | OtherEmbedder.

Record host : Type := {
  wrapped : embedder;
  open_clip_tokenizer : tokenizer;
  word_embeddings : gmap string Embedding;   (* embedding_db.word_embeddings *)
  dir_mtime : option Z;                      (* embedding_db.dir_mtime *)
  files : gmap string Embedding;             (* the files on disk, by path *)
  writable : string -> bool;                 (* does saving to a path succeed *)
  reloads : nat                              (* calls of the re-scan so far *)
}.

(** Library kernels the source calls and only passes along.
    [tie_before scores a b] is the choice [torch.sort] makes between two
    indices [a] and [b] of equal score: the source does not ask for a stable
    sort, so which of them comes first is left to the library. *)
Class Kernels : Type := {
  checksum : Embedding -> string;
  utf8_backslashreplace : list Byte.byte -> string;
  str_float : Qc -> string;
  str_tensor : list Qc -> string;
  CosineSimilarity : list Qc -> list Qc -> Qc;
  tie_before : list Qc -> Z -> Z -> bool;
  load_textual_inversion_embeddings :
    gmap string Embedding -> gmap string Embedding
}.

Definition MAX_NUM_MIX : nat := 6.
Definition MAX_SIMILAR_EMBS : nat := 30.
Definition SEP_STR : string :=
  "--------------------------------------------------------------------------------".

(** ** Resolver *)

Section Resolver.
Context `{K : Kernels}.

Definition get_data (h : host)
  : option tokenizer * option tensor * gmap string Embedding :=
  let loaded_embs := word_embeddings h in
  match wrapped h with
  | FrozenCLIPEmbedder tok w => (Some tok, Some w, loaded_embs)
  | FrozenOpenCLIPEmbedder w => (Some (open_clip_tokenizer h), Some w, loaded_embs)
  | OtherEmbedder => (None, None, loaded_embs)
  end.

(** [None] is the Python [None] the source returns for an unknown class. *)
Definition text_to_emb_ids (text : string) (tokenizer : option tokenizer)
  : option (list Z) :=
  match tokenizer with
  | Some tk =>
      match tok_class tk with
      | CLIPTokenizer => Some (input_ids tk text)
      | SimpleTokenizer => Some (encode tk text)
      | UnknownTokenizer => None
      end
  | None => None
  end.

(** [[byte_decoder[c] for c in s]]: a missing key raises. *)
Fixpoint decode_bytes (bd : gmap N Byte.byte) (s : list N)
  : outcome (list Byte.byte) :=
  match s with
  | [] => Ok []
  | c :: r =>
      match bd !! c with
      | Some b => let! bs := decode_bytes bd r in Ok (b :: bs)
      | None => Raise KeyError
      end
  end.

Definition emb_id_to_name (emb_id : Z) (tokenizer : option tokenizer)
  : outcome string :=
  match tokenizer with
  | None => Raise AttributeError
  | Some tk =>
      match decoder tk !! emb_id with
      | Some emb_name_utf8 =>
          let! byte_array_utf8 := decode_bytes (byte_decoder tk) emb_name_utf8 in
          Ok (utf8_backslashreplace byte_array_utf8)
      | None => Ok "!Unknown ID!"
      end
  end.

(** An embedding ID is an [int] for internal embeddings and a [str] for
    loaded ones. *)
Inductive emb_id_t : Type :=
  | IdInt (i : Z)
  | IdStr (s : string).

Definition str_id (i : emb_id_t) : string :=
  match i with
  | IdInt z => Py.str z
  | IdStr s => s
  end.

(** The tuple [(emb_name, emb_id, emb_vec, loaded_emb)]; the all-[None]
    tuple of the source is [None]. *)
Definition info : Type := string * emb_id_t * tensor * option Embedding.

(** The [#nnnnn] branch: the [try] swallows both the [ValueError] of [int]
    and the [AttributeError] of a missing embedding matrix. *)
Definition hash_val (text : string) (internal_embs : option tensor) : option Z :=
  match Py.after_hash text with
  | Some digits =>
      match Py.int digits with
      | Some val =>
          match internal_embs with
          | Some w =>
              if (val <? 0) || (val >=? Z.of_nat (shape0 w)) then None
              else Some val
          | None => None
          end
      | None => None
      end
  | None => None
  end.

Definition get_embedding_info (h : host) (text : string) : outcome (option info) :=
  let '(tokenizer, internal_embs, loaded_embs) := get_data h in
  match loaded_embs !! text with
  | Some loaded_emb =>
      let emb_name := name loaded_emb in
      let emb_id := IdStr ("[" +:+ checksum loaded_emb +:+ "]") in
      let emb_vec := vec loaded_emb in
      Ok (Some (emb_name, emb_id, emb_vec, Some loaded_emb))
  | None =>
      let! first :=
        match hash_val text internal_embs with
        | Some val => Ok (Some val)
        | None =>
            match text_to_emb_ids text tokenizer with
            | None => Raise TypeError                (* len(None) *)
            | Some [] => Ok None
            | Some (emb_id :: _) => Ok (Some emb_id)
            end
        end in
      match first with
      | None => Ok None
      | Some emb_id =>
          let! emb_name := emb_id_to_name emb_id tokenizer in
          let! row := match internal_embs with
                | Some w => index w emb_id
                | None => Raise TypeError
                end in
          Ok (Some (emb_name, IdInt emb_id, unsqueeze row, None))
      end
  end.

End Resolver.

(** ** Inspector *)

Section Inspector.
Context `{K : Kernels}.

(** [torch.sort(scores, descending=True)]: larger scores first, and no
    promise about equal scores (the call does not pass [stable=True]).
    [sort_insert tie x l] puts the entry [x] into the sorted list [l] behind
    the entries of larger score and behind those entries of equal score that
    [tie] places before it; [tie] stands for the order the library picks
    among equal scores. *)
Fixpoint sort_insert (tie : Z -> Z -> bool) (x : Qc * Z) (l : list (Qc * Z))
  : list (Qc * Z) :=
  match l with
  | [] => [x]
  | y :: r =>
      if bool_decide (x.1 < y.1)%Qc || (bool_decide (x.1 = y.1) && tie y.2 x.2)
      then y :: sort_insert tie x r
      else x :: l
  end.

Definition torch_sort_desc (scores : list Qc) : list (Qc * Z) :=
  foldr (sort_insert (tie_before scores)) []
    (zip scores (Z.of_nat <$> seq 0 (length scores))).

(** [cos(all_embs, vec_v)]: one score per vocabulary row. *)
Definition cos_scores (all_embs : tensor) (vec_v : list Qc) : list Qc :=
  map (fun row => CosineSimilarity row vec_v) (rows all_embs).

(** [sorted_ids[0:MAX_SIMILAR_EMBS]] *)
Definition best_ids_of (all_embs : tensor) (vec_v : list Qc) : list Z :=
  take MAX_SIMILAR_EMBS (snd <$> torch_sort_desc (cos_scores all_embs vec_v)).

(** [emb_name+'('+str(emb_id)+')'] *)
Definition name_id (emb_name : string) (emb_id : emb_id_t) : string :=
  emb_name +:+ "(" +:+ str_id emb_id +:+ ")".

(** The loop [for i in range(0, MAX_SIMILAR_EMBS)] over the positions [idxs];
    [best_ids[i]] raises when the vocabulary is shorter. *)
Fixpoint similar_names (tokenizer : option tokenizer) (best_ids : list Z)
    (idxs : list nat) : outcome (list string) :=
  match idxs with
  | [] => Ok []
  | i :: rest =>
      match best_ids !! i with
      | None => Raise IndexError
      | Some emb_id =>
          let! emb_name := emb_id_to_name emb_id tokenizer in
          let! r := similar_names tokenizer best_ids rest in
          Ok (name_id emb_name (IdInt emb_id) :: r)
      end
  end.

Definition mismatch_line : string :=
  "Vector size is not compatible with current SD model".

Definition vector_line (v : nat) (vec_v : list Qc) : string :=
  "Vector[" +:+ Py.str (Z.of_nat v) +:+ "] = " +:+ str_tensor vec_v.

(** One iteration of the loop over the rows of the inspected vector. *)
Definition inspect_row (tokenizer : option tokenizer) (internal_embs : tensor)
    (v : nat) (vec_v : list Qc) : outcome (list string) :=
  if decide (length vec_v ≠ shape1 internal_embs) then
    Ok [vector_line v vec_v; mismatch_line]
  else
    let! r := similar_names tokenizer (best_ids_of internal_embs vec_v)
          (seq 0 MAX_SIMILAR_EMBS) in
    Ok [vector_line v vec_v; EmptyString; "Similar embeddings:";
        Py.join "   " r; SEP_STR].

Fixpoint inspect_rows (tokenizer : option tokenizer) (internal_embs : tensor)
    (v : nat) (emb_vec : list (list Qc)) : outcome (list string) :=
  match emb_vec with
  | [] => Ok []
  | vec_v :: rest =>
      let! here := inspect_row tokenizer internal_embs v vec_v in
      let! later := inspect_rows tokenizer internal_embs (S v) rest in
      Ok (here ++ later)%list
  end.

Definition dquote : string := String "034"%char EmptyString.

Definition inspect_header (i : info) : list string :=
  let '(emb_name, emb_id, emb_vec, loaded_emb) := i in
  (["Embedding name: " +:+ dquote +:+ emb_name +:+ dquote]
  ++ [match emb_id with
      | IdInt _ => "Embedding ID: " +:+ str_id emb_id +:+ " (internal)"
      | IdStr _ => "Embedding ID: " +:+ str_id emb_id +:+ " (loaded)"
      end]
  ++ match loaded_emb with
     | Some e =>
         ["Step: " +:+ Py.str_opt Py.str (step e);
          "SD checkpoint: " +:+ Py.str_opt id (sd_checkpoint e);
          "SD checkpoint name: " +:+ Py.str_opt id (sd_checkpoint_name e)]
     | None => []
     end
  ++ ["Vector count: " +:+ Py.str (Z.of_nat (shape0 emb_vec));
      "Vector size: " +:+ Py.str (Z.of_nat (shape1 emb_vec));
      SEP_STR])%list.

Definition newline : string := String "010"%char EmptyString.

Definition do_inspect (h : host) (text : string) : outcome string :=
  let text := Py.strip text in
  if decide (text = EmptyString) then
    Ok "Need embedding name or embedding ID as #nnnnn"
  else
    let! i := get_embedding_info h text in
    match i with
    | None => Ok "An error occurred"
    | Some (emb_name, emb_id, emb_vec, loaded_emb) =>
        let results := inspect_header (emb_name, emb_id, emb_vec, loaded_emb) in
        let '(tokenizer, internal_embs, loaded_embs) := get_data h in
        match internal_embs with
        | None => Raise AttributeError          (* internal_embs.to(...) *)
        | Some all_embs =>
            let! lines := inspect_rows tokenizer all_embs 0 (rows emb_vec) in
            Ok (Py.join newline (results ++ lines)%list)
        end
    end.

End Inspector.

(** ** Mixer *)

Section Mixer.
Context `{K : Kernels}.

(** The locals [vec_size], [tot_vec] and [results] that the mixing loop of
    [do_save] threads through its iterations. *)
Record mix_state : Type := {
  vec_size : option nat;
  tot_vec : option tensor;
  results : list string
}.

Definition log (st : mix_state) (line : string) : mix_state :=
  {| vec_size := vec_size st; tot_vec := tot_vec st;
     results := (results st ++ [line])%list |}.

(** The sum branch: zero-pad the shorter of accumulator and entry along the
    row axis, then accumulate [mix_vec * mixval]. *)
Definition sum_into (vsz : nat) (tot : option tensor) (mix_vec : tensor)
    (mixval : Qc) : outcome tensor :=
  let tot_vec := default (zeros 1 vsz) tot in   (* zeros(vec_size).unsqueeze(0) *)
  let! padded :=
    if decide (shape0 mix_vec ≠ shape0 tot_vec) then
      let padding :=
        zeros (Z.to_nat (Z.abs (Z.of_nat (shape0 tot_vec) - Z.of_nat (shape0 mix_vec)))) vsz in
      if decide (shape0 mix_vec < shape0 tot_vec)%nat then
        let! mix_vec' := cat mix_vec padding in Ok (mix_vec', tot_vec)
      else
        let! tot_vec' := cat tot_vec padding in Ok (mix_vec, tot_vec')
    else Ok (mix_vec, tot_vec) in
  add padded.2 (scale padded.1 mixval).

(** The concat branch. *)
Definition concat_into (tot : option tensor) (mix_vec : tensor) (mixval : Qc)
  : outcome tensor :=
  match tot with
  | None => Ok (scale mix_vec mixval)
  | Some tot_vec => cat tot_vec (scale mix_vec mixval)
  end.

(** One iteration of [for k in range(MAX_NUM_MIX)], given [args[k]] and
    [args[k+MAX_NUM_MIX]]. *)
Definition mix_entry (h : host) (concat_mode : bool) (st : mix_state)
    (arg_name : string) (mixval : Qc) : outcome mix_state :=
  let name := Py.strip arg_name in
  if bool_decide (name = EmptyString) || bool_decide (mixval = 0%Qc) then Ok st
  else
    let! i := get_embedding_info h name in
    match i with
    | None => Raise AttributeError            (* emb_vec.to(...) on None *)
    | Some (emb_name, emb_id, emb_vec, loaded_emb) =>
        let mix_vec := emb_vec in
        let incompatible :=
          match vec_size st with
          | None => false
          | Some vs => bool_decide (vs ≠ shape1 mix_vec)
          end in
        if incompatible then
          Ok (log st ("! Vector size is not compatible, skipping "
                      +:+ name_id emb_name emb_id))
        else
          let vsz := default (shape1 mix_vec) (vec_size st) in
          if negb concat_mode then
            let! tot := sum_into vsz (tot_vec st) mix_vec mixval in
            Ok {| vec_size := Some vsz; tot_vec := Some tot;
                  results := (results st ++
                    ["+ " +:+ name_id emb_name emb_id +:+ " x " +:+ str_float mixval])%list |}
          else
            let! tot := concat_into (tot_vec st) mix_vec mixval in
            Ok {| vec_size := Some vsz; tot_vec := Some tot;
                  results := (results st ++
                    ["> " +:+ name_id emb_name emb_id +:+ " x " +:+ str_float mixval])%list |}
    end.

(** The loop over the slots [ks]; a slot the argument list does not have
    raises (the click handler always passes [MAX_NUM_MIX] names and
    [MAX_NUM_MIX] sliders). *)
Fixpoint mix_loop (h : host) (concat_mode : bool) (names : list string)
    (mixvals : list Qc) (ks : list nat) (st : mix_state) : outcome mix_state :=
  match ks with
  | [] => Ok st
  | k :: rest =>
      match names !! k, mixvals !! k with
      | Some arg_name, Some mixval =>
          let! st' := mix_entry h concat_mode st arg_name mixval in
          mix_loop h concat_mode names mixvals rest st'
      | _, _ => Raise IndexError
      end
  end.

(** The host after [new_emb.save(save_filename)] was attempted: [None] when
    the write raised. *)
Definition save_file (h : host) (new_emb : Embedding) (save_filename : string)
  : option host :=
  if writable h save_filename then
    Some {| wrapped := wrapped h; open_clip_tokenizer := open_clip_tokenizer h;
            word_embeddings := word_embeddings h; dir_mtime := dir_mtime h;
            files := <[save_filename := new_emb]> (files h);
            writable := writable h; reloads := reloads h |}
  else None.

(** [dir_mtime = 0] followed by [load_textual_inversion_embeddings()]. *)
Definition reload (h : host) : host :=
  {| wrapped := wrapped h; open_clip_tokenizer := open_clip_tokenizer h;
     word_embeddings := load_textual_inversion_embeddings (files h);
     dir_mtime := Some 0;
     files := files h; writable := writable h; reloads := S (reloads h) |}.

Definition save_path (save_name : string) : string :=
  "embeddings/" +:+ save_name +:+ ".bin".

Definition do_save (h : host) (names : list string) (mixvals : list Qc)
    (global_mul : Qc) (concat_mode : bool) (arg_save_name : string)
    (enable_overwrite : bool) (arg_step_text : string) : outcome (string * host) :=
  let save_name := Py.strip arg_save_name in
  let step_text := Py.strip arg_step_text in
  if bool_decide (save_name = EmptyString) then Ok ("Filename is empty", h)
  else
    let save_filename := save_path save_name in
    let file_exists := bool_decide (is_Some (files h !! save_filename)) in
    if file_exists && negb enable_overwrite then
      Ok ("File already exists, overwrite not enabled, aborting save.", h)
    else
      let results0 :=
        if file_exists then ["File already exists, overwrite is enabled"] else [] in
      let step_val := Py.int step_text in
      let results1 :=
        match step_val with
        | None =>
            if bool_decide (step_text ≠ EmptyString)
            then (results0 ++ ["Step value is invalid, ignoring"])%list
            else results0
        | Some _ => results0
        end in
      let! st := mix_loop h concat_mode names mixvals (seq 0 MAX_NUM_MIX)
                   {| vec_size := None; tot_vec := None; results := results1 |} in
      match tot_vec st with
      | None =>
          Ok (Py.join newline
                (results st ++ ["No embeddings were mixed, nothing to save"])%list, h)
      | Some tot =>
          let tot := scale tot global_mul in
          let results2 :=
            if bool_decide (global_mul ≠ 1%Qc)
            then (results st ++ ["x global multiplier " +:+ str_float global_mul])%list
            else results st in
          let new_emb := new_Embedding tot save_name in
          let '(new_emb, results3) :=
            match step_val with
            | Some s => (set_step new_emb s,
                         (results2 ++ ["Setting step value to " +:+ Py.str s])%list)
            | None => (new_emb, results2)
            end in
          let '(h1, results4) :=
            match save_file h new_emb save_filename with
            | Some h' =>
                (h', (results3 ++ ["Saved " +:+ dquote +:+ save_filename +:+ dquote])%list)
            | None =>
                (h, (results3 ++ ["Error saving " +:+ dquote +:+ save_filename +:+ dquote
                                  +:+ " (filename might be invalid)"])%list)
            end in
          let results5 := (results4 ++ ["Reloading all embeddings"])%list in
          Ok (Py.join newline results5, reload h1)
      end.

End Mixer.

(** ** Mini-tokenizer *)

Section MiniTokenizer.
Context `{K : Kernels}.

(** [l[i] = x] *)
Definition set_item (l : list string) (i : nat) (x : string) : outcome (list string) :=
  if decide (i < length l)%nat then Ok (<[i := x]> l) else Raise IndexError.

(** The loop [for i in range(len(found_ids))], from position [i] on. *)
Fixpoint send_ids (mini_sendtomix : bool) (found_ids : list Z) (i : nat)
    (mix_inputs_list results : list string) : outcome (list string * list string) :=
  match found_ids with
  | [] => Ok (mix_inputs_list, results)
  | found :: rest =>
      let idstr := "#" +:+ Py.str found in
      let results := (results ++ [idstr])%list in
      let! mix_inputs_list :=
        if mini_sendtomix && bool_decide (i < MAX_NUM_MIX)%nat
        then set_item mix_inputs_list i idstr
        else Ok mix_inputs_list in
      send_ids mini_sendtomix rest (S i) mix_inputs_list results
  end.

(** The loop [for i in range(MAX_NUM_MIX)] that empties the slots from the
    token count on. *)
Fixpoint clear_slots (count : nat) (idxs : list nat) (mix_inputs_list : list string)
  : outcome (list string) :=
  match idxs with
  | [] => Ok mix_inputs_list
  | i :: rest =>
      let! mix_inputs_list :=
        if (count <=? i)%nat
        then set_item mix_inputs_list i EmptyString
        else Ok mix_inputs_list in
      clear_slots count rest mix_inputs_list
  end.

(** Returns the slots, the concat flag and the joined [#id] tokens. *)
Definition do_minitokenize (h : host) (mix_inputs : list string)
    (concat_mode mini_sendtomix : bool) (arg_mini_input : string)
  : outcome (list string * bool * string) :=
  let mini_input := Py.strip arg_mini_input in
  let mix_inputs := take MAX_NUM_MIX mix_inputs in          (* args[0:MAX_NUM_MIX] *)
  let '(tokenizer, internal_embs, loaded_embs) := get_data h in
  match text_to_emb_ids mini_input tokenizer with
  | None => Raise TypeError                                 (* len(None) *)
  | Some found_ids =>
      let! sent := send_ids mini_sendtomix found_ids 0 mix_inputs [] in
      let '(mix_inputs_list, results) := sent in
      if mini_sendtomix then
        let! mix_inputs_list :=
          clear_slots (length found_ids) (seq 0 MAX_NUM_MIX) mix_inputs_list in
        Ok (mix_inputs_list, true, Py.join " " results)
      else
        Ok (mix_inputs_list, concat_mode, Py.join " " results)
  end.

End MiniTokenizer.

(** ** Auxiliary definitions used in the proofs *)

(** No character of the string is one that [strip] removes. *)
Fixpoint no_space (s : string) : bool :=
  match s with
  | EmptyString => true
  | String c r => negb (Py.is_space c) && no_space r
  end.

(** The value of a decimal numeral read left to right, starting from [acc]. *)
Fixpoint uint_value (d : uint) (acc : Z) : Z :=
  match d with
  | Nil => acc
  | D0 l => uint_value l (acc * 10 + 0)
  | D1 l => uint_value l (acc * 10 + 1)
  | D2 l => uint_value l (acc * 10 + 2)
  | D3 l => uint_value l (acc * 10 + 3)
  | D4 l => uint_value l (acc * 10 + 4)
  | D5 l => uint_value l (acc * 10 + 5)
  | D6 l => uint_value l (acc * 10 + 6)
  | D7 l => uint_value l (acc * 10 + 7)
  | D8 l => uint_value l (acc * 10 + 8)
  | D9 l => uint_value l (acc * 10 + 9)
  end.

(** The slots of a save request that the mixing loop does not skip. *)
Definition active (entry : string * Qc) : bool :=
  negb (bool_decide (Py.strip entry.1 = EmptyString) || bool_decide (entry.2 = 0%Qc)).

Definition active_entries (names : list string) (mixvals : list Qc)
  : list (string * Qc) :=
  filter (fun e => active e = true) (zip names mixvals).

(** The similarity of vocabulary row [id] to [vec_v]. *)
Definition score_of `{K : Kernels} (all_embs : tensor) (vec_v : list Qc) (id : Z) : Qc :=
  default 0%Qc (cos_scores all_embs vec_v !! Z.to_nat id).


(** The order [torch.sort] guarantees between two (score, id) pairs: the
    earlier one has no smaller score. *)
Definition not_below (x y : Qc * Z) : Prop := (y.1 <= x.1)%Qc.

(** The mixing loop as a fold over the (name, weight) pairs of the slots. *)
Fixpoint mix_list `{K : Kernels} (h : host) (concat_mode : bool)
    (entries : list (string * Qc)) (st : mix_state) : outcome mix_state :=
  match entries with
  | [] => Ok st
  | e :: rest =>
      let! st' := mix_entry h concat_mode st e.1 e.2 in
      mix_list h concat_mode rest st'
  end.

(** Two loop states that differ in their log lines only. *)
Definition same_mix (a b : mix_state) : Prop :=
  vec_size a = vec_size b /\ tot_vec a = tot_vec b.

(** The entry as the sum branch uses it: an entry without rows is padded
    to one zero row. *)
Definition pad_rows (v : tensor) : tensor :=
  if decide (shape0 v = 0%nat) then zeros 1 (cols v) else v.

(** The vector stored under [path] once a save request has returned. *)
Definition saved_vec (o : outcome (string * host)) (path : string) : option tensor :=
  match o with
  | Ok (_, h') => vec <$> files h' !! path
  | Raise _ => None
  end.

(** The log a save request returned. *)
Definition log_of (o : outcome (string * host)) : option string :=
  match o with
  | Ok (log, _) => Some log
  | Raise _ => None
  end.

(** The token the mini-tokenizer prints for an ID. *)
Definition id_token (i : Z) : string := "#" +:+ Py.str i.

(** The exception a call ended in, if any. *)
Definition exn_of {A} (c : outcome A) : option exn :=
  match c with
  | Ok _ => None
  | Raise e => Some e
  end.

(** The accumulator of the mixing loop has the width recorded in
    [vec_size]. *)
Definition mix_inv (st : mix_state) : Prop :=
  match tot_vec st with
  | Some t => vec_size st = Some (cols t)
  | None => True
  end.

(** ** A small concrete host *)

Module Demo.

Definition q (z : Z) : Qc := Q2Qc (inject_Z z).

Definition str_q (x : Qc) : string :=
  Py.str (Qnum (this x)) +:+ "/" +:+ Py.str (Z.pos (Qden (this x))).

Definition dot (a b : list Qc) : Qc := foldr Qcplus 0%Qc (zip_with Qcmult a b).

(** Rational stand-ins for the library kernels. *)
Definition kernels : Kernels := {|
  checksum := fun e => "c0de";
  utf8_backslashreplace := string_of_list_byte;
  str_float := str_q;
  str_tensor := fun row => "tensor([" +:+ Py.join ", " (map str_q row) +:+ "])";
  CosineSimilarity := dot;
  tie_before := fun scores a b => a <? b;
  load_textual_inversion_embeddings := fun disk =>
    list_to_map (map (fun pe => (name pe.2, pe.2)) (map_to_list disk))
|}.

(** A decimal approximation of the square root, truncated after twelve
    digits; exact on the squares of such decimals. *)
Definition sqrt12 (x : Qc) : Qc :=
  Q2Qc (Z.sqrt (Qnum (this x) * 10 ^ 24 / Z.pos (Qden (this x))) # 10 ^ 12).

(** The [eps] of [CosineSimilarity(dim=1, eps=1e-6)]. *)
Definition eps : Qc := Q2Qc (1 # 10 ^ 6).

(** [x.clamp_min(low)] *)
Definition clamp_min (x low : Qc) : Qc :=
  if bool_decide (x < low)%Qc then low else x.

(** Cosine similarity as torch computes it: the dot product over the root
    of the product of the squared norms, that product kept above [eps]
    squared. *)
Definition cosine (a b : list Qc) : Qc :=
  (dot a b / sqrt12 (clamp_min (dot a a * dot b b) (eps * eps)))%Qc.

(** Kernels with that cosine, and a sort that puts the larger index first
    among equal scores. *)
Definition cosine_kernels : Kernels := {|
  checksum := fun e => "c0de";
  utf8_backslashreplace := string_of_list_byte;
  str_float := str_q;
  str_tensor := fun row => "tensor([" +:+ Py.join ", " (map str_q row) +:+ "])";
  CosineSimilarity := cosine;
  tie_before := fun scores a b => b <? a;
  load_textual_inversion_embeddings := fun disk =>
    list_to_map (map (fun pe => (name pe.2, pe.2)) (map_to_list disk))
|}.

(** U+200B ZERO WIDTH SPACE in UTF-8: not whitespace for [strip], and
    removed by the text cleaning of a CLIP tokenizer that runs without
    ftfy. *)
Definition zwsp : string :=
  String "226"%char (String "128"%char (String "139"%char EmptyString)).

Definition code_points (s : string) : list N :=
  map Byte.to_N (list_byte_of_string s).

Definition clip : tokenizer := {|
  tok_class := CLIPTokenizer;
  input_ids := fun text =>
    if bool_decide (text = EmptyString) then []
    else if bool_decide (text = zwsp) then []
    else if bool_decide (text = "cat") then [0]
    else if bool_decide (text = "dog") then [1]
    else if bool_decide (text = "cat dog") then [0; 1]
    else [2];
  encode := fun text => [];
  decoder := list_to_map [(0, code_points "cat"); (1, code_points "dog")];
  byte_decoder :=
    list_to_map (map (fun b => (Byte.to_N b, b)) (list_byte_of_string "catdog"))
|}.

(** A three-token vocabulary of width 2. *)
Definition vocab : tensor :=
  Tensor 2 [[q 1; q 0]; [q 0; q 1]; [q 1; q 1]].

Definition duo : Embedding :=
  new_Embedding (Tensor 2 [[q 1; q 2]; [q 3; q 4]]) "duo".

Definition wide : Embedding :=
  new_Embedding (Tensor 3 [[q 1; q 2; q 3]]) "wide".

Definition small_host : host := {|
  wrapped := FrozenCLIPEmbedder clip vocab;
  open_clip_tokenizer := clip;
  word_embeddings := list_to_map [("duo", duo); ("wide", wide)];
  dir_mtime := None;
  files := list_to_map [("embeddings/.bin", duo); ("embeddings/duo.bin", duo)];
  writable := fun path => negb (bool_decide (path = "embeddings/no/dir.bin"));
  reloads := 0
|}.

(** A tokenizer with empty tables: every ID is unknown to it. *)
Definition blank : tokenizer := {|
  tok_class := CLIPTokenizer;
  input_ids := fun text => [];
  encode := fun text => [];
  decoder := ∅;
  byte_decoder := ∅
|}.

(** A vocabulary of 32 one-component rows [[0]], [[1]], ..., [[31]]. *)
Definition big_vocab : tensor :=
  Tensor 1 (map (fun k => [q (Z.of_nat k)]) (seq 0 32)).

Definition big_host : host := {|
  wrapped := FrozenCLIPEmbedder blank big_vocab;
  open_clip_tokenizer := blank;
  word_embeddings := ∅;
  dir_mtime := None;
  files := ∅;
  writable := fun path => true;
  reloads := 0
|}.

Definition six (a b : string) : list string :=
  [a; b; EmptyString; EmptyString; EmptyString; EmptyString].

Definition ones : list Qc := [q 1; q 1; q 1; q 1; q 1; q 1].

(** Weight 1 for the first slot and -1 for the second. *)
Definition plus_minus : list Qc := [1%Qc; (- (1))%Qc; q 1; q 1; q 1; q 1].

(** Six filled name slots. *)
Definition slots : list string := ["a"; "b"; "c"; "d"; "e"; "f"].

(** A vocabulary of 32 rows of width 2 fanning out over distinct
    directions [[1, k]], except for row 5, which is all zeros. *)
Definition fan_vocab : tensor :=
  Tensor 2 (map (fun k => if (k =? 5)%nat then [q 0; q 0] else [q 1; q (Z.of_nat k)])
              (seq 0 32)).


(** A host whose embedder is of neither supported class. *)
Definition bare_host : host := {|
  wrapped := OtherEmbedder;
  open_clip_tokenizer := clip;
  word_embeddings := list_to_map [("duo", duo)];
  dir_mtime := None;
  files := ∅;
  writable := fun path => true;
  reloads := 0
|}.

(** All six weights zero. *)
Definition zeros6 : list Qc := [q 0; q 0; q 0; q 0; q 0; q 0].

End Demo.

(** * Theorems *)

(** ** Facts about the Python helpers *)

Module PyFacts.
Import Py.

Lemma lstrip_no_space s : no_space s = true -> lstrip s = s.
Proof.
  destruct s as [|c r]; simpl; [reflexivity|].
  destruct (is_space c); simpl; [discriminate|reflexivity].
Qed.

Lemma no_space_rev_app s t :
  no_space (String.rev_app s t) = no_space s && no_space t.
Proof.
  revert t. induction s as [|c r IH]; intros t; simpl; [reflexivity|].
  rewrite IH. simpl. destruct (is_space c), (no_space r); reflexivity.
Qed.

Lemma rev_app_rev_app s t u :
  String.rev_app (String.rev_app s t) u = String.rev_app t (s +:+ u).
Proof.
  revert t u. induction s as [|c r IH]; intros t u; [reflexivity|].
  change (String.rev_app (String.rev_app r (String c t)) u
          = String.rev_app t (String c (r +:+ u))).
  rewrite IH. reflexivity.
Qed.

Lemma append_empty_r s : s +:+ EmptyString = s.
Proof.
  induction s as [|c r IH]; [reflexivity|].
  change (String c (r +:+ EmptyString) = String c r). f_equal. exact IH.
Qed.

Lemma rev_involutive s : String.rev (String.rev s) = s.
Proof.
  unfold String.rev. rewrite rev_app_rev_app. simpl. apply append_empty_r.
Qed.

Lemma strip_no_space s : no_space s = true -> strip s = s.
Proof.
  intros H. unfold strip, rstrip.
  rewrite (lstrip_no_space s H).
  rewrite lstrip_no_space.
  - apply rev_involutive.
  - unfold String.rev. rewrite no_space_rev_app, H. reflexivity.
Qed.

Lemma no_space_string_of_uint d : no_space (NilEmpty.string_of_uint d) = true.
Proof. induction d; simpl; auto. Qed.

Lemma int_digits_string_of_uint d acc :
  int_digits (NilEmpty.string_of_uint d) acc true = Some (uint_value d acc).
Proof.
  revert acc. induction d; intros acc; simpl; auto.
Qed.

Lemma int_digits_numeral d acc :
  d <> Nil ->
  int_digits (NilEmpty.string_of_uint d) acc false = Some (uint_value d acc).
Proof.
  destruct d; intros Hd; try congruence; simpl;
    apply int_digits_string_of_uint.
Qed.

Lemma uint_value_acc d a :
  uint_value d (Z.pos a) = Z.pos (Pos.of_uint_acc d a).
Proof.
  revert a. induction d; intros a; simpl; auto;
    match goal with
    | |- uint_value _ ?x = Z.pos (Pos.of_uint_acc _ ?y) =>
        replace x with (Z.pos y) by lia; auto
    end.
Qed.

Lemma uint_value_0 d : uint_value d 0 = Z.of_N (Pos.of_uint d).
Proof.
  induction d; simpl; auto; apply uint_value_acc.
Qed.

Lemma int_of_numeral d :
  d <> Nil -> int (NilEmpty.string_of_uint d) = Some (uint_value d 0).
Proof.
  intros Hd. unfold int.
  rewrite strip_no_space by apply no_space_string_of_uint.
  rewrite <- (int_digits_numeral d 0 Hd).
  destruct d; try congruence; reflexivity.
Qed.

(** [int(str(i)) == i] for the IDs the resolver prints. *)
Lemma int_str (i : Z) : 0 <= i -> int (str i) = Some i.
Proof.
  intros Hi. unfold str. destruct i as [|p|p]; [reflexivity| |lia].
  simpl.
  assert (Hn : Pos.to_uint p <> Nil) by apply Unsigned.to_uint_nonnil.
  assert (Hs : NilZero.string_of_uint (Pos.to_uint p)
               = NilEmpty.string_of_uint (Pos.to_uint p)).
  { revert Hn. generalize (Pos.to_uint p). intros d Hd.
    destruct d; congruence || reflexivity. }
  rewrite Hs, int_of_numeral by exact Hn.
  rewrite uint_value_0, Unsigned.of_to. reflexivity.
Qed.

End PyFacts.

(** ** Resolver *)

Section ResolverFacts.
Context `{K : Kernels}.

Lemma get_data_loaded h : (get_data h).2 = word_embeddings h.
Proof. unfold get_data. destruct (wrapped h); reflexivity. Qed.

Lemma get_data_tokenizer h tokenizer internal_embs loaded_embs :
  get_data h = (tokenizer, Some internal_embs, loaded_embs) ->
  exists tk, tokenizer = Some tk.
Proof.
  unfold get_data. destruct (wrapped h); intros H; inversion H; eauto.
Qed.

Lemma hash_val_str internal_embs (i : Z) :
  0 <= i < Z.of_nat (shape0 internal_embs) ->
  hash_val ("#" +:+ Py.str i) (Some internal_embs) = Some i.
Proof.
  intros Hi. unfold hash_val.
  change (Py.after_hash ("#" +:+ Py.str i)) with (Some (Py.str i)).
  cbv beta iota.
  rewrite PyFacts.int_str by lia.
  destruct (Z.ltb_spec i 0); [lia|].
  destruct (Z.geb_spec i (Z.of_nat (shape0 internal_embs))); [lia|].
  reflexivity.
Qed.

Lemma index_in_range t (i : Z) :
  0 <= i < Z.of_nat (shape0 t) ->
  exists row, rows t !! Z.to_nat i = Some row /\ index t i = Ok row.
Proof.
  intros Hi. unfold index.
  destruct (Z.ltb_spec i 0); [lia|].
  destruct (Z.leb_spec 0 i); [|lia].
  destruct (Z.ltb_spec i (Z.of_nat (shape0 t))); [|lia].
  simpl.
  destruct (lookup_lt_is_Some_2 (rows t) (Z.to_nat i)) as [row Hrow].
  { unfold shape0 in Hi. lia. }
  exists row. rewrite Hrow. split; reflexivity.
Qed.

Lemma decode_bytes_ok bd s bs :
  Forall2 (fun c b => bd !! c = Some b) s bs -> decode_bytes bd s = Ok bs.
Proof.
  induction 1 as [|c b s bs Hc Hs IH]; simpl; [reflexivity|].
  rewrite Hc, IH. reflexivity.
Qed.

(** C3.  For a valid vocabulary index [i] whose text ["#"+str(i)] is not a
    key of the loaded embeddings, the resolver returns row [i] of the
    embedding matrix as the vector, [i] as the (integer) ID, and as the name
    the UTF-8 decoding of the bytes that the byte table gives for the
    characters of the decoder's entry for [i]; when the decoder has no entry
    for [i] the name is the sentinel and the call still succeeds. *)
Theorem resolve_hash_id h tokenizer internal_embs loaded_embs (i : Z) :
  get_data h = (tokenizer, Some internal_embs, loaded_embs) ->
  0 <= i < Z.of_nat (shape0 internal_embs) ->
  loaded_embs !! ("#" +:+ Py.str i) = None ->
  exists tk row,
    tokenizer = Some tk /\
    rows internal_embs !! Z.to_nat i = Some row /\
    (forall emb_name_utf8 byte_array_utf8,
       decoder tk !! i = Some emb_name_utf8 ->
       Forall2 (fun c b => byte_decoder tk !! c = Some b)
         emb_name_utf8 byte_array_utf8 ->
       get_embedding_info h ("#" +:+ Py.str i) =
         Ok (Some (utf8_backslashreplace byte_array_utf8, IdInt i,
                   unsqueeze row, None))) /\
    (decoder tk !! i = None ->
     get_embedding_info h ("#" +:+ Py.str i) =
       Ok (Some ("!Unknown ID!", IdInt i, unsqueeze row, None))).
Proof.
  intros Hdata Hi Hnone.
  destruct (get_data_tokenizer _ _ _ _ Hdata) as [tk ->].
  destruct (index_in_range internal_embs i Hi) as (row & Hrow & Hidx).
  exists tk, row.
  assert (Hres : get_embedding_info h ("#" +:+ Py.str i) =
    (let! emb_name := emb_id_to_name i (Some tk) in
     Ok (Some (emb_name, IdInt i, unsqueeze row, None)))).
  { unfold get_embedding_info. rewrite Hdata, Hnone.
    rewrite (hash_val_str internal_embs i Hi). simpl.
    rewrite Hidx. reflexivity. }
  repeat split; try assumption.
  - intros emb_name_utf8 byte_array_utf8 Hknown Hbytes.
    rewrite Hres. unfold emb_id_to_name.
    rewrite Hknown, (decode_bytes_ok _ _ _ Hbytes). reflexivity.
  - intros Hunknown. rewrite Hres. unfold emb_id_to_name.
    rewrite Hunknown. reflexivity.
Qed.

(** C4 (amended).  When the text is a key of the loaded embeddings, the
    resolver returns that entry's whole vector tensor (every row), its name,
    the checksum in square brackets as a string ID, and the entry itself as
    the loaded reference. *)
Theorem resolve_loaded h text loaded_emb :
  word_embeddings h !! text = Some loaded_emb ->
  get_embedding_info h text =
    Ok (Some (name loaded_emb, IdStr ("[" +:+ checksum loaded_emb +:+ "]"),
              vec loaded_emb, Some loaded_emb)).
Proof.
  intros Hkey. unfold get_embedding_info.
  pose proof (get_data_loaded h) as Hl.
  destruct (get_data h) as [[tokenizer internal_embs] loaded_embs].
  simpl in Hl. subst loaded_embs. rewrite Hkey. reflexivity.
Qed.

End ResolverFacts.

Lemma resolve_hash_id_witness :
  get_embedding_info (K := Demo.kernels) Demo.small_host ("#" +:+ Py.str 0) =
    Ok (Some ("cat", IdInt 0, unsqueeze [Demo.q 1; Demo.q 0], None)) /\
  get_embedding_info (K := Demo.kernels) Demo.small_host ("#" +:+ Py.str 2) =
    Ok (Some ("!Unknown ID!", IdInt 2, unsqueeze [Demo.q 1; Demo.q 1], None)).
Proof.
  split.
  - destruct (resolve_hash_id (K := Demo.kernels) Demo.small_host (Some Demo.clip)
                Demo.vocab (word_embeddings Demo.small_host) 0)
      as (tk & row & Htk & Hrow & Hknown & _).
    + reflexivity.
    + vm_compute. split; [discriminate | reflexivity].
    + vm_compute. reflexivity.
    + inversion Htk; subst tk. vm_compute in Hrow. inversion Hrow; subst row.
      apply (Hknown (Demo.code_points "cat") (list_byte_of_string "cat")).
      * vm_compute. reflexivity.
      * vm_compute. repeat constructor.
  - destruct (resolve_hash_id (K := Demo.kernels) Demo.small_host (Some Demo.clip)
                Demo.vocab (word_embeddings Demo.small_host) 2)
      as (tk & row & Htk & Hrow & _ & Hunknown).
    + reflexivity.
    + vm_compute. split; [discriminate | reflexivity].
    + vm_compute. reflexivity.
    + inversion Htk; subst tk. vm_compute in Hrow. inversion Hrow; subst row.
      apply Hunknown. vm_compute. reflexivity.
Defined.

Lemma resolve_loaded_witness :
  get_embedding_info (K := Demo.kernels) Demo.small_host "duo" =
    Ok (Some ("duo", IdStr "[c0de]", vec Demo.duo, Some Demo.duo)).
Proof.
  apply (resolve_loaded (K := Demo.kernels) Demo.small_host "duo" Demo.duo).
  vm_compute. reflexivity.
Defined.

(** C4, as stated, fails: the loaded embedding [duo] has two rows and the
    resolver returns both, not the first row alone. *)
Lemma resolve_loaded_first_row_counterexample :
  word_embeddings Demo.small_host !! "duo" = Some Demo.duo /\
  head (rows (vec Demo.duo)) = Some [Demo.q 1; Demo.q 2] /\
  get_embedding_info (K := Demo.kernels) Demo.small_host "duo" =
    Ok (Some ("duo", IdStr "[c0de]", vec Demo.duo, Some Demo.duo)) /\
  shape0 (vec Demo.duo) = 2%nat /\
  vec Demo.duo <> unsqueeze [Demo.q 1; Demo.q 2].
Proof.
  repeat split; try (vm_compute; reflexivity).
  intros H. apply (f_equal shape0) in H. vm_compute in H. discriminate.
Qed.

(** ** Inspector *)

Section SortFacts.
Context `{K : Kernels}.

Lemma sort_insert_perm tie x l : sort_insert tie x l ≡ₚ x :: l.
Proof.
  induction l as [|y r IH]; simpl; [reflexivity|].
  destruct (bool_decide (x.1 < y.1)%Qc || (bool_decide (x.1 = y.1) && tie y.2 x.2));
    [|reflexivity].
  rewrite IH. apply Permutation_swap.
Qed.

(** Whatever the choice among equal scores, inserting keeps the scores in
    descending order. *)
Lemma sort_insert_sorted tie x l :
  StronglySorted not_below l ->
  StronglySorted not_below (sort_insert tie x l).
Proof.
  induction l as [|y r IH]; intros Hs; simpl.
  - repeat constructor.
  - apply StronglySorted_inv in Hs as [Hr Hy].
    destruct (bool_decide (x.1 < y.1)%Qc || (bool_decide (x.1 = y.1) && tie y.2 x.2))
      eqn:Hc.
    + assert (Hxy : not_below y x).
      { unfold not_below. apply orb_true_iff in Hc as [Hlt|Heq].
        - apply bool_decide_eq_true in Hlt. apply Qclt_le_weak. exact Hlt.
        - apply andb_true_iff in Heq as [Heq _].
          apply bool_decide_eq_true in Heq. rewrite Heq. apply Qcle_refl. }
      constructor; [apply IH; exact Hr|].
      rewrite sort_insert_perm. constructor; [exact Hxy|exact Hy].
    + apply orb_false_iff in Hc as [Hlt _].
      apply bool_decide_eq_false in Hlt. apply Qcnot_lt_le in Hlt.
      constructor; [constructor; assumption|].
      constructor; [exact Hlt|].
      eapply Forall_impl; [exact Hy|].
      intros z Hz. unfold not_below in *. exact (Qcle_trans _ _ _ Hz Hlt).
Qed.

Lemma foldr_sort_insert_perm tie l : foldr (sort_insert tie) [] l ≡ₚ l.
Proof.
  induction l as [|x l IH]; simpl; [reflexivity|].
  rewrite sort_insert_perm, IH. reflexivity.
Qed.

Lemma foldr_sort_insert_sorted tie l :
  StronglySorted not_below (foldr (sort_insert tie) [] l).
Proof.
  induction l as [|x l IH]; simpl; [constructor|].
  apply sort_insert_sorted. exact IH.
Qed.

(** The (score, id) pairs the sort starts from. *)
Lemma indexed_lookup (scores : list Qc) (a : nat) (k : nat) s id :
  zip scores (Z.of_nat <$> seq a (length scores)) !! k = Some (s, id) <->
  scores !! k = Some s /\ id = Z.of_nat (a + k).
Proof.
  rewrite lookup_zip_with_Some. split.
  - intros (s' & id' & Heq & Hs & Hid). inversion Heq; subst s' id'.
    rewrite list_lookup_fmap in Hid.
    destruct (seq a (length scores) !! k) as [n|] eqn:Hn; [|discriminate].
    apply lookup_seq in Hn as [-> _]. simpl in Hid. inversion Hid. auto.
  - intros [Hs ->]. exists s, (Z.of_nat (a + k)). repeat split; [exact Hs|].
    rewrite list_lookup_fmap, lookup_seq_lt; [reflexivity|].
    apply lookup_lt_Some in Hs. exact Hs.
Qed.

Lemma torch_sort_desc_perm scores :
  torch_sort_desc scores ≡ₚ zip scores (Z.of_nat <$> seq 0 (length scores)).
Proof. apply foldr_sort_insert_perm. Qed.

Lemma torch_sort_desc_sorted scores :
  StronglySorted not_below (torch_sort_desc scores).
Proof. apply foldr_sort_insert_sorted. Qed.

Lemma torch_sort_desc_length scores :
  length (torch_sort_desc scores) = length scores.
Proof.
  rewrite torch_sort_desc_perm, length_zip_with, length_fmap, length_seq. lia.
Qed.

Lemma torch_sort_desc_elem scores s id :
  (s, id) ∈ torch_sort_desc scores <->
  0 <= id /\ scores !! Z.to_nat id = Some s.
Proof.
  rewrite torch_sort_desc_perm, list_elem_of_lookup. split.
  - intros [k Hk]. apply indexed_lookup in Hk as [Hs ->].
    simpl. rewrite Nat2Z.id. split; [lia|exact Hs].
  - intros [Hid Hs]. exists (Z.to_nat id). apply indexed_lookup.
    split; [exact Hs|]. simpl. lia.
Qed.

Lemma sorted_lookup {A} (R : A -> A -> Prop) (l : list A) a b x y :
  StronglySorted R l -> (a < b)%nat ->
  l !! a = Some x -> l !! b = Some y -> R x y.
Proof.
  intros Hs. revert a b. induction Hs as [|z l Hl IH Hz]; intros a b Hab Ha Hb.
  - rewrite lookup_nil in Ha. discriminate.
  - destruct b as [|b]; [lia|]. simpl in Hb. destruct a as [|a].
    + simpl in Ha. inversion Ha; subst z.
      rewrite Forall_forall in Hz. apply Hz.
      apply list_elem_of_lookup. eauto.
    + simpl in Ha. apply (IH a b); [lia|assumption..].
Qed.

End SortFacts.

Section InspectorFacts.
Context `{K : Kernels}.

Lemma best_ids_length all_embs vec_v :
  (MAX_SIMILAR_EMBS <= shape0 all_embs)%nat ->
  length (best_ids_of all_embs vec_v) = MAX_SIMILAR_EMBS.
Proof.
  intros Hn. unfold best_ids_of, cos_scores.
  rewrite length_take, length_fmap, torch_sort_desc_length, length_map.
  unfold shape0 in Hn. lia.
Qed.

Lemma best_ids_lookup all_embs vec_v a id :
  best_ids_of all_embs vec_v !! a = Some id ->
  torch_sort_desc (cos_scores all_embs vec_v) !! a
    = Some (score_of all_embs vec_v id, id) /\
  0 <= id < Z.of_nat (shape0 all_embs).
Proof.
  unfold best_ids_of. intros Ha.
  apply lookup_take_Some in Ha as [Ha _].
  rewrite list_lookup_fmap in Ha.
  destruct (torch_sort_desc (cos_scores all_embs vec_v) !! a)
    as [[s id']|] eqn:Hs; [|discriminate].
  simpl in Ha. inversion Ha; subst id'.
  assert (Hin : (s, id) ∈ torch_sort_desc (cos_scores all_embs vec_v))
    by (apply list_elem_of_lookup; eauto).
  apply torch_sort_desc_elem in Hin as [Hid Hsc].
  split.
  - unfold score_of. rewrite Hsc. reflexivity.
  - apply lookup_lt_Some in Hsc. unfold cos_scores in Hsc.
    rewrite length_map in Hsc. unfold shape0. lia.
Qed.




Lemma similar_names_ok tokenizer name_of best (a n : nat) :
  (forall id, id ∈ best -> emb_id_to_name id tokenizer = Ok (name_of id)) ->
  (a + n <= length best)%nat ->
  similar_names tokenizer best (seq a n) =
    Ok (map (fun id => name_id (name_of id) (IdInt id)) (take n (drop a best))).
Proof.
  intros Hnames. revert a. induction n as [|n IH]; intros a Hlen; simpl.
  - reflexivity.
  - destruct (lookup_lt_is_Some_2 best a) as [id Hid]; [lia|].
    rewrite Hid, (Hnames id) by (apply list_elem_of_lookup; eauto).
    simpl. rewrite IH by lia. simpl.
    rewrite (drop_S _ _ _ Hid). reflexivity.
Qed.

Lemma inspect_rows_app tokenizer all_embs v pre post :
  inspect_rows tokenizer all_embs v (pre ++ post) =
    (let! before := inspect_rows tokenizer all_embs v pre in
     let! after := inspect_rows tokenizer all_embs (v + length pre) post in
     Ok (before ++ after)%list).
Proof.
  revert v. induction pre as [|r pre IH]; intros v; simpl.
  - rewrite Nat.add_0_r.
    destruct (inspect_rows tokenizer all_embs v post); reflexivity.
  - destruct (inspect_row tokenizer all_embs v r) as [here|e]; simpl;
      [|reflexivity].
    rewrite IH. replace (S v + length pre)%nat with (v + S (length pre))%nat by lia.
    destruct (inspect_rows tokenizer all_embs (S v) pre) as [l1|e]; simpl;
      [|reflexivity].
    destruct (inspect_rows tokenizer all_embs (v + S (length pre)) post)
      as [l2|e]; simpl; [|reflexivity].
    rewrite app_assoc. reflexivity.
Qed.


(** C8.  When a row of the inspected embedding does not have the
    vocabulary's width, [do_inspect] emits for it the vector line followed
    by the mismatch line, computes no similarity for it, and goes on with
    the rows before and after it exactly as it would without it. *)
Theorem inspect_mismatch_row h text tokenizer all_embs loaded_embs
    emb_name emb_id emb_vec loaded_emb pre vec_v post :
  Py.strip text <> EmptyString ->
  get_embedding_info h (Py.strip text) =
    Ok (Some (emb_name, emb_id, emb_vec, loaded_emb)) ->
  get_data h = (tokenizer, Some all_embs, loaded_embs) ->
  rows emb_vec = (pre ++ vec_v :: post)%list ->
  length vec_v <> shape1 all_embs ->
  do_inspect h text =
    (let! before := inspect_rows tokenizer all_embs 0 pre in
     let! after := inspect_rows tokenizer all_embs (S (length pre)) post in
     Ok (Py.join newline
           (inspect_header (emb_name, emb_id, emb_vec, loaded_emb)
            ++ before
            ++ [vector_line (length pre) vec_v; mismatch_line]
            ++ after)%list)).
Proof.
  intros Htext Hinfo Hdata Hrows Hdim.
  unfold do_inspect. rewrite decide_False by exact Htext.
  rewrite Hinfo. cbn [and_then]. rewrite Hdata, Hrows.
  rewrite inspect_rows_app. simpl inspect_rows at 2.
  unfold inspect_row at 1. rewrite decide_True by exact Hdim.
  destruct (inspect_rows tokenizer all_embs 0 pre) as [l1|e]; simpl;
    [|reflexivity].
  destruct (inspect_rows tokenizer all_embs (S (length pre)) post)
    as [l2|e]; simpl; reflexivity.
Qed.

End InspectorFacts.


Lemma inspect_mismatch_row_witness :
  do_inspect (K := Demo.kernels) Demo.small_host "wide" =
    Ok (Py.join newline
          (inspect_header
             ("wide", IdStr "[c0de]", vec Demo.wide, Some Demo.wide)
           ++ [vector_line (K := Demo.kernels) 0 [Demo.q 1; Demo.q 2; Demo.q 3];
               mismatch_line])%list).
Proof.
  apply (inspect_mismatch_row (K := Demo.kernels) Demo.small_host "wide"
           (Some Demo.clip) Demo.vocab (word_embeddings Demo.small_host)
           "wide" (IdStr "[c0de]") (vec Demo.wide) (Some Demo.wide)
           [] [Demo.q 1; Demo.q 2; Demo.q 3] []).
  - vm_compute. discriminate.
  - vm_compute. reflexivity.
  - reflexivity.
  - reflexivity.
  - vm_compute. discriminate.
Defined.


(** ** Mixer *)

Section MixerFacts.
Context `{K : Kernels}.

Lemma mix_loop_from h concat_mode names mixvals (a n : nat) st :
  length names = (a + n)%nat -> length mixvals = (a + n)%nat ->
  mix_loop h concat_mode names mixvals (seq a n) st =
    mix_list h concat_mode (zip (drop a names) (drop a mixvals)) st.
Proof.
  revert a st. induction n as [|n IH]; intros a st Hn Hv.
  - rewrite !drop_ge by lia. reflexivity.
  - destruct (lookup_lt_is_Some_2 names a) as [x Hx]; [lia|].
    destruct (lookup_lt_is_Some_2 mixvals a) as [w Hw]; [lia|].
    rewrite (drop_S _ _ _ Hx), (drop_S _ _ _ Hw). simpl.
    rewrite Hx, Hw.
    destruct (mix_entry h concat_mode st x w) as [st'|e]; simpl;
      [|reflexivity].
    apply IH; lia.
Qed.

Lemma mix_loop_zip h concat_mode names mixvals st :
  length names = MAX_NUM_MIX -> length mixvals = MAX_NUM_MIX ->
  mix_loop h concat_mode names mixvals (seq 0 MAX_NUM_MIX) st =
    mix_list h concat_mode (zip names mixvals) st.
Proof. intros Hn Hv. apply (mix_loop_from _ _ _ _ 0 MAX_NUM_MIX); assumption. Qed.

Lemma mix_entry_skip h concat_mode st e :
  active e = false -> mix_entry h concat_mode st e.1 e.2 = Ok st.
Proof.
  unfold active, mix_entry. intros H. apply negb_false_iff in H.
  rewrite H. reflexivity.
Qed.

Lemma mix_list_active h concat_mode entries st :
  mix_list h concat_mode entries st =
    mix_list h concat_mode (filter (fun e => active e = true) entries) st.
Proof.
  revert st. induction entries as [|e rest IH]; intros st; [reflexivity|].
  rewrite filter_cons. destruct (decide (active e = true)) as [Ha|Ha].
  - simpl. destruct (mix_entry h concat_mode st e.1 e.2); simpl; auto.
  - apply not_true_is_false in Ha. simpl.
    rewrite (mix_entry_skip _ _ _ _ Ha). simpl. apply IH.
Qed.

Lemma mix_loop_active h concat_mode names mixvals st :
  length names = MAX_NUM_MIX -> length mixvals = MAX_NUM_MIX ->
  mix_loop h concat_mode names mixvals (seq 0 MAX_NUM_MIX) st =
    mix_list h concat_mode (active_entries names mixvals) st.
Proof.
  intros Hn Hv. rewrite mix_loop_zip by assumption. apply mix_list_active.
Qed.

(** An entry that is not skipped and whose resolution yields nothing ends
    the call: the mixer reads [emb_vec.to] on [None]. *)
Lemma mix_entry_unresolved h concat_mode st arg_name mixval :
  active (arg_name, mixval) = true ->
  get_embedding_info h (Py.strip arg_name) = Ok None ->
  mix_entry h concat_mode st arg_name mixval = Raise AttributeError.
Proof.
  unfold active, mix_entry. simpl. intros Ha Hinfo.
  apply negb_true_iff in Ha. rewrite Ha, Hinfo. reflexivity.
Qed.

Lemma mix_entry_resolved h concat_mode st arg_name mixval
    emb_name emb_id emb_vec loaded_emb :
  active (arg_name, mixval) = true ->
  get_embedding_info h (Py.strip arg_name)
    = Ok (Some (emb_name, emb_id, emb_vec, loaded_emb)) ->
  (match vec_size st with Some vs => vs = shape1 emb_vec | None => True end) ->
  mix_entry h concat_mode st arg_name mixval =
    (let vsz := default (shape1 emb_vec) (vec_size st) in
     let! tot := (if concat_mode then concat_into (tot_vec st) emb_vec mixval
                  else sum_into vsz (tot_vec st) emb_vec mixval) in
     Ok {| vec_size := Some vsz; tot_vec := Some tot;
           results := (results st ++
             [(if concat_mode then "> " else "+ ")
              +:+ name_id emb_name emb_id +:+ " x " +:+ str_float mixval])%list |}).
Proof.
  unfold active, mix_entry. simpl. intros Ha Hinfo Hsize.
  apply negb_true_iff in Ha. rewrite Ha, Hinfo. simpl.
  assert (Hc : match vec_size st with
               | Some vs => bool_decide (vs ≠ shape1 emb_vec)
               | None => false
               end = false).
  { destruct (vec_size st); [|reflexivity].
    apply bool_decide_eq_false. intros Hne. exact (Hne Hsize). }
  rewrite Hc. destruct concat_mode; reflexivity.
Qed.

(** The vectors the loop computes do not depend on the log lines it
    started with. *)
Lemma mix_entry_same h concat_mode a b arg_name mixval :
  same_mix a b ->
  match mix_entry h concat_mode a arg_name mixval,
        mix_entry h concat_mode b arg_name mixval with
  | Ok a', Ok b' => same_mix a' b'
  | Raise e1, Raise e2 => e1 = e2
  | _, _ => False
  end.
Proof.
  intros [Hs Ht]. unfold mix_entry.
  destruct (bool_decide (Py.strip arg_name = EmptyString) || bool_decide (mixval = 0%Qc));
    [split; assumption|].
  destruct (get_embedding_info h (Py.strip arg_name)) as [[[[[n i] v] l]|]|e];
    simpl; try reflexivity.
  rewrite <- Hs, <- Ht.
  destruct (match vec_size a with
            | Some vs => bool_decide (vs ≠ shape1 v) | None => false end);
    [split; assumption|].
  destruct concat_mode; simpl.
  - destruct (concat_into (tot_vec a) v mixval); simpl; [split|]; reflexivity.
  - destruct (sum_into (default (shape1 v) (vec_size a)) (tot_vec a) v mixval);
      simpl; [split|]; reflexivity.
Qed.

Lemma mix_loop_same h concat_mode names mixvals ks a b :
  same_mix a b ->
  match mix_loop h concat_mode names mixvals ks a,
        mix_loop h concat_mode names mixvals ks b with
  | Ok a', Ok b' => same_mix a' b'
  | Raise e1, Raise e2 => e1 = e2
  | _, _ => False
  end.
Proof.
  revert a b. induction ks as [|k ks IH]; intros a b Hab; simpl; [exact Hab|].
  destruct (names !! k); [|reflexivity].
  destruct (mixvals !! k); [|reflexivity].
  pose proof (mix_entry_same h concat_mode a b s q Hab) as He.
  destruct (mix_entry h concat_mode a s q) as [a'|e1],
           (mix_entry h concat_mode b s q) as [b'|e2];
    simpl; try contradiction; [apply IH; exact He | exact He].
Qed.

Lemma mix_loop_any_log h concat_mode names mixvals ks st tot r0 :
  mix_loop h concat_mode names mixvals ks
    {| vec_size := None; tot_vec := None; results := [] |} = Ok st ->
  tot_vec st = Some tot ->
  exists st', mix_loop h concat_mode names mixvals ks
                {| vec_size := None; tot_vec := None; results := r0 |} = Ok st'
              /\ tot_vec st' = Some tot.
Proof.
  intros Hrun Htot.
  pose proof (mix_loop_same h concat_mode names mixvals ks
    {| vec_size := None; tot_vec := None; results := [] |}
    {| vec_size := None; tot_vec := None; results := r0 |}
    (conj eq_refl eq_refl)) as H.
  rewrite Hrun in H.
  destruct (mix_loop h concat_mode names mixvals ks
              {| vec_size := None; tot_vec := None; results := r0 |})
    as [st'|e]; [|contradiction].
  exists st'. split; [reflexivity|]. destruct H as [_ <-]. exact Htot.
Qed.

(** What [do_save] does once the loop has produced a vector: the record is
    built, the write is attempted, and the reload follows in either case. *)
Lemma do_save_after_mix h names mixvals global_mul concat_mode
    save_name enable_overwrite step_text st tot :
  Py.strip save_name <> EmptyString ->
  (is_Some (files h !! save_path (Py.strip save_name)) -> enable_overwrite = true) ->
  mix_loop h concat_mode names mixvals (seq 0 MAX_NUM_MIX)
    {| vec_size := None; tot_vec := None; results := [] |} = Ok st ->
  tot_vec st = Some tot ->
  exists lines new_emb,
    name new_emb = Py.strip save_name /\
    vec new_emb = scale tot global_mul /\
    step new_emb = Py.int (Py.strip step_text) /\
    do_save h names mixvals global_mul concat_mode save_name enable_overwrite step_text =
      Ok (Py.join newline
            (lines ++
             [if writable h (save_path (Py.strip save_name))
              then "Saved " +:+ dquote +:+ save_path (Py.strip save_name) +:+ dquote
              else "Error saving " +:+ dquote +:+ save_path (Py.strip save_name)
                   +:+ dquote +:+ " (filename might be invalid)";
              "Reloading all embeddings"])%list,
          reload (default h (save_file h new_emb (save_path (Py.strip save_name))))).
Proof.
  intros Hname Hover Hrun Htot. unfold do_save.
  rewrite bool_decide_eq_false_2 by exact Hname.
  set (path := save_path (Py.strip save_name)) in *.
  assert (Hgate : bool_decide (is_Some (files h !! path)) && negb enable_overwrite = false).
  { case_bool_decide as Hex; [|reflexivity]. rewrite (Hover Hex). reflexivity. }
  rewrite Hgate.
  match goal with
  | |- context [mix_loop _ _ _ _ _ {| vec_size := None; tot_vec := None; results := ?r |}] =>
      destruct (mix_loop_any_log h concat_mode names mixvals _ st tot r Hrun Htot)
        as (st' & Hrun' & Htot')
  end.
  rewrite Hrun'. cbn [and_then]. rewrite Htot'.
  set (r2 := if bool_decide (global_mul ≠ 1%Qc) then _ else _).
  destruct (Py.int (Py.strip step_text)) as [s|] eqn:Hstep.
  - exists (r2 ++ ["Setting step value to " +:+ Py.str s])%list,
      (set_step (new_Embedding (scale tot global_mul) (Py.strip save_name)) s).
    repeat split. unfold save_file.
    destruct (writable h path); simpl; rewrite <- app_assoc; reflexivity.
  - exists r2, (new_Embedding (scale tot global_mul) (Py.strip save_name)).
    repeat split. unfold save_file.
    destruct (writable h path); simpl; rewrite <- app_assoc; reflexivity.
Qed.

End MixerFacts.

Section SumFacts.
Context `{K : Kernels}.

Lemma add_ok a b :
  cols a = cols b -> shape0 a = shape0 b ->
  add a b = Ok (Tensor (cols a) (zip_with (zip_with Qcplus) (rows a) (rows b))).
Proof. intros Hc Hr. unfold add. rewrite decide_True by auto. reflexivity. Qed.

Lemma shape0_zeros r c : shape0 (zeros r c) = r.
Proof. apply length_replicate. Qed.

Lemma shape0_scale t w : shape0 (scale t w) = shape0 t.
Proof. apply length_map. Qed.

Lemma shape0_pad_rows v : shape0 (pad_rows v) = Nat.max 1 (shape0 v).
Proof.
  unfold pad_rows. destruct (decide (shape0 v = 0%nat)) as [->|Hne];
    [reflexivity | lia].
Qed.

Lemma cols_pad_rows v : cols (pad_rows v) = cols v.
Proof. unfold pad_rows. destruct (decide _); reflexivity. Qed.

Lemma well_shaped_pad_rows v : well_shaped v -> well_shaped (pad_rows v).
Proof.
  unfold pad_rows. intros Hv. destruct (decide _); [|exact Hv].
  unfold well_shaped. simpl. repeat constructor. apply length_replicate.
Qed.

Lemma sum_into_first v w :
  sum_into (cols v) None v w =
    add (zeros (Nat.max 1 (shape0 v)) (cols v)) (scale (pad_rows v) w).
Proof.
  destruct v as [c R]. unfold sum_into, pad_rows, shape0. simpl.
  destruct R as [|r1 [|r2 R]]; simpl.
  - unfold cat. simpl. rewrite decide_True by reflexivity. reflexivity.
  - reflexivity.
  - replace (Z.to_nat (Z.abs (Z.of_nat 1 - Z.of_nat (S (S (length R))))))
      with (S (length R)) by lia.
    unfold cat. simpl cols. rewrite decide_True by reflexivity. reflexivity.
Qed.

Lemma sum_into_next v w t :
  shape0 t = Nat.max 1 (shape0 v) ->
  sum_into (cols v) (Some t) v w = add t (scale (pad_rows v) w).
Proof.
  intros Ht. unfold sum_into, pad_rows. simpl default.
  destruct (decide (shape0 v = 0%nat)) as [H0|H0].
  - rewrite H0 in *. simpl in Ht. rewrite Ht.
    rewrite decide_True by lia. rewrite decide_True by lia.
    destruct v as [c R]. unfold shape0 in H0. simpl in H0.
    destruct R; [|discriminate]. unfold cat. simpl.
    rewrite decide_True by reflexivity. reflexivity.
  - rewrite decide_False by lia. reflexivity.
Qed.

Lemma cancel_row (r : list Qc) :
  map (fun x => (x * 1)%Qc)
    (zip_with Qcplus
       (zip_with Qcplus (replicate (length r) 0%Qc) (map (fun x => (x * 1)%Qc) r))
       (map (fun x => (x * - (1))%Qc) r))
  = replicate (length r) 0%Qc.
Proof.
  induction r as [|x r IH]; simpl; [reflexivity|].
  rewrite IH. f_equal. ring.
Qed.

Lemma cancel_rows (c : nat) (P : list (list Qc)) :
  Forall (fun r => length r = c) P ->
  map (map (fun x => (x * 1)%Qc))
    (zip_with (zip_with Qcplus)
       (zip_with (zip_with Qcplus)
          (replicate (length P) (replicate c 0%Qc))
          (map (map (fun x => (x * 1)%Qc)) P))
       (map (map (fun x => (x * - (1))%Qc)) P))
  = replicate (length P) (replicate c 0%Qc).
Proof.
  induction 1 as [|r P Hr HP IH]; simpl; [reflexivity|].
  rewrite IH. f_equal. rewrite <- Hr. apply cancel_row.
Qed.

(** Adding a vector with weight 1 and the same vector with weight -1 to the
    fresh accumulator, then applying the global multiplier 1, leaves
    zeros. *)
Lemma sum_cancels v :
  well_shaped v ->
  exists t1 t2,
    sum_into (cols v) None v 1%Qc = Ok t1 /\
    sum_into (cols v) (Some t1) v (- (1))%Qc = Ok t2 /\
    scale t2 1%Qc = zeros (Nat.max 1 (shape0 v)) (cols v).
Proof.
  intros Hv.
  pose proof (well_shaped_pad_rows v Hv) as Hp.
  pose proof (shape0_pad_rows v) as Hm.
  pose proof (cols_pad_rows v) as Hc.
  set (P := pad_rows v) in *.
  set (m := Nat.max 1 (shape0 v)) in *.
  set (t1 := Tensor (cols v)
               (zip_with (zip_with Qcplus) (rows (zeros m (cols v)))
                  (rows (scale P 1%Qc)))).
  assert (H1 : shape0 t1 = m).
  { unfold t1, shape0. simpl.
    rewrite length_zip_with, length_replicate, length_map.
    unfold shape0 in Hm. lia. }
  exists t1,
    (Tensor (cols v)
       (zip_with (zip_with Qcplus) (rows t1) (rows (scale P (- (1))%Qc)))).
  split; [|split].
  - rewrite sum_into_first. fold P m. apply add_ok.
    + simpl. symmetry. exact Hc.
    + rewrite shape0_zeros, shape0_scale. symmetry. exact Hm.
  - rewrite (sum_into_next v _ t1 H1). fold P. rewrite add_ok; [reflexivity| |].
    + simpl. symmetry. exact Hc.
    + rewrite H1, shape0_scale. symmetry. exact Hm.
  - unfold scale, zeros, t1. simpl. f_equal.
    rewrite <- Hm. unfold shape0.
    unfold well_shaped in Hp. rewrite Hc in Hp.
    apply cancel_rows. exact Hp.
Qed.

End SumFacts.

Section MixerClaims.
Context `{K : Kernels}.

Lemma reload_written h new_emb path :
  writable h path = true ->
  files (reload (default h (save_file h new_emb path))) !! path = Some new_emb.
Proof.
  intros Hw. unfold save_file. rewrite Hw. simpl. apply lookup_insert_eq.
Qed.

(** C5 (amended).  In concat mode, two contributing entries whose vectors
    have the same per-row dimension are combined into exactly [r1 + r2]
    rows: the rows of the first entry times its weight, then the rows of the
    second times its weight.  When the save goes through, the stored vector
    is that combination times the global multiplier, still of [r1 + r2]
    rows. *)
Theorem concat_two_entries h names mixvals global_mul save_name
    enable_overwrite step_text n1 w1 n2 w2
    name1 id1 v1 loaded1 name2 id2 v2 loaded2 :
  length names = MAX_NUM_MIX -> length mixvals = MAX_NUM_MIX ->
  active_entries names mixvals = [(n1, w1); (n2, w2)] ->
  get_embedding_info h (Py.strip n1) = Ok (Some (name1, id1, v1, loaded1)) ->
  get_embedding_info h (Py.strip n2) = Ok (Some (name2, id2, v2, loaded2)) ->
  shape1 v1 = shape1 v2 ->
  let tot := Tensor (cols v1) (rows (scale v1 w1) ++ rows (scale v2 w2))%list in
  shape0 tot = (shape0 v1 + shape0 v2)%nat /\
  (exists st,
     mix_loop h true names mixvals (seq 0 MAX_NUM_MIX)
       {| vec_size := None; tot_vec := None; results := [] |} = Ok st /\
     tot_vec st = Some tot) /\
  (Py.strip save_name <> EmptyString ->
   (is_Some (files h !! save_path (Py.strip save_name)) -> enable_overwrite = true) ->
   writable h (save_path (Py.strip save_name)) = true ->
   exists log h' saved,
     do_save h names mixvals global_mul true save_name enable_overwrite step_text
       = Ok (log, h') /\
     files h' !! save_path (Py.strip save_name) = Some saved /\
     vec saved = scale tot global_mul /\
     shape0 (vec saved) = (shape0 v1 + shape0 v2)%nat).
Proof.
  intros Hn Hv Hact H1 H2 Hdim tot.
  assert (Ha : Forall (fun e => active e = true) [(n1, w1); (n2, w2)]).
  { rewrite <- Hact. unfold active_entries. apply Forall_forall.
    intros e He. apply list_elem_of_filter in He as [He _]. exact He. }
  apply Forall_cons in Ha as [Ha1 Ha]. apply Forall_cons in Ha as [Ha2 _].
  assert (Hrows : shape0 tot = (shape0 v1 + shape0 v2)%nat).
  { unfold shape0, tot. simpl. rewrite length_app, !length_map. reflexivity. }
  assert (Hrun : exists st,
    mix_loop h true names mixvals (seq 0 MAX_NUM_MIX)
      {| vec_size := None; tot_vec := None; results := [] |} = Ok st
    /\ tot_vec st = Some tot).
  { rewrite mix_loop_active by assumption. rewrite Hact. simpl.
    rewrite (mix_entry_resolved h true _ n1 w1 _ _ _ _ Ha1 H1) by exact I.
    simpl.
    rewrite (mix_entry_resolved h true _ n2 w2 _ _ _ _ Ha2 H2) by exact Hdim.
    simpl. unfold cat. simpl cols.
    rewrite decide_True by exact Hdim. simpl. eexists. split; reflexivity. }
  split; [exact Hrows|]. split; [exact Hrun|].
  intros Hname Hover Hw.
  destruct Hrun as (st & Hrun & Htot).
  destruct (do_save_after_mix h names mixvals global_mul true save_name
              enable_overwrite step_text st tot Hname Hover Hrun Htot)
    as (lines & new_emb & _ & Hvec & _ & Hsave).
  eexists. eexists. exists new_emb. split; [exact Hsave|].
  split; [apply reload_written; exact Hw|]. split; [exact Hvec|].
  rewrite Hvec, shape0_scale. exact Hrows.
Qed.

(** C7 (amended).  In sum mode, two contributing entries that resolve to
    the same vector, the first with weight 1 and the second with weight -1,
    are combined into a vector that the global multiplier 1 turns into
    zeros; when the save goes through, zeros are what is stored. *)
Theorem sum_of_opposites_is_zero h names mixvals save_name
    enable_overwrite step_text n1 n2 v
    name1 id1 loaded1 name2 id2 loaded2 :
  length names = MAX_NUM_MIX -> length mixvals = MAX_NUM_MIX ->
  active_entries names mixvals = [(n1, 1%Qc); (n2, (- (1))%Qc)] ->
  get_embedding_info h (Py.strip n1) = Ok (Some (name1, id1, v, loaded1)) ->
  get_embedding_info h (Py.strip n2) = Ok (Some (name2, id2, v, loaded2)) ->
  well_shaped v ->
  (exists st tot,
     mix_loop h false names mixvals (seq 0 MAX_NUM_MIX)
       {| vec_size := None; tot_vec := None; results := [] |} = Ok st /\
     tot_vec st = Some tot /\
     scale tot 1%Qc = zeros (Nat.max 1 (shape0 v)) (cols v)) /\
  (Py.strip save_name <> EmptyString ->
   (is_Some (files h !! save_path (Py.strip save_name)) -> enable_overwrite = true) ->
   writable h (save_path (Py.strip save_name)) = true ->
   exists log h' saved,
     do_save h names mixvals 1%Qc false save_name enable_overwrite step_text
       = Ok (log, h') /\
     files h' !! save_path (Py.strip save_name) = Some saved /\
     vec saved = zeros (Nat.max 1 (shape0 v)) (cols v)).
Proof.
  intros Hn Hv Hact H1 H2 Hshape.
  assert (Ha : Forall (fun e => active e = true) [(n1, 1%Qc); (n2, (- (1))%Qc)]).
  { rewrite <- Hact. unfold active_entries. apply Forall_forall.
    intros e He. apply list_elem_of_filter in He as [He _]. exact He. }
  apply Forall_cons in Ha as [Ha1 Ha]. apply Forall_cons in Ha as [Ha2 _].
  destruct (sum_cancels v Hshape) as (t1 & t2 & Hs1 & Hs2 & Hzero).
  assert (Hrun : exists st,
    mix_loop h false names mixvals (seq 0 MAX_NUM_MIX)
      {| vec_size := None; tot_vec := None; results := [] |} = Ok st
    /\ tot_vec st = Some t2).
  { rewrite mix_loop_active by assumption. rewrite Hact. simpl.
    rewrite (mix_entry_resolved h false _ n1 1%Qc _ _ _ _ Ha1 H1) by exact I.
    simpl. unfold shape1. rewrite Hs1. simpl.
    rewrite (mix_entry_resolved h false _ n2 (- (1))%Qc _ _ _ _ Ha2 H2)
      by reflexivity.
    simpl. unfold shape1. rewrite Hs2. simpl. eexists. split; reflexivity. }
  destruct Hrun as (st & Hrun & Htot).
  split; [exists st, t2; auto|].
  intros Hname Hover Hw.
  destruct (do_save_after_mix h names mixvals 1%Qc false save_name
              enable_overwrite step_text st t2 Hname Hover Hrun Htot)
    as (lines & new_emb & _ & Hvec & _ & Hsave).
  eexists. eexists. exists new_emb. split; [exact Hsave|].
  split; [apply reload_written; exact Hw|].
  rewrite Hvec. exact Hzero.
Qed.

(** C6 (amended).  When the target path exists and overwrite is disabled,
    [do_save] returns without touching the host: no write, no reload, the
    files as they were.  Its message is the file-exists one, unless the
    trimmed filename is empty, which is rejected first with its own
    message. *)
Theorem save_existing_without_overwrite h names mixvals global_mul concat_mode
    save_name step_text :
  is_Some (files h !! save_path (Py.strip save_name)) ->
  do_save h names mixvals global_mul concat_mode save_name false step_text =
    Ok (if bool_decide (Py.strip save_name = EmptyString)
        then "Filename is empty"
        else "File already exists, overwrite not enabled, aborting save.",
        h).
Proof.
  intros Hex. unfold do_save.
  destruct (bool_decide (Py.strip save_name = EmptyString)); [reflexivity|].
  rewrite bool_decide_eq_true_2 by exact Hex. reflexivity.
Qed.

(** C10.  Once the loop has mixed at least one entry, [do_save] ends with
    the reload whatever the write attempt did: the returned host is
    [reload] of the host after the write, or of the unchanged host when the
    write raised, and the log carries the outcome of the write followed by
    the reload line. *)
Theorem save_always_reloads h names mixvals global_mul concat_mode
    save_name enable_overwrite step_text st tot :
  Py.strip save_name <> EmptyString ->
  (is_Some (files h !! save_path (Py.strip save_name)) -> enable_overwrite = true) ->
  mix_loop h concat_mode names mixvals (seq 0 MAX_NUM_MIX)
    {| vec_size := None; tot_vec := None; results := [] |} = Ok st ->
  tot_vec st = Some tot ->
  exists lines new_emb h',
    do_save h names mixvals global_mul concat_mode save_name enable_overwrite step_text =
      Ok (Py.join newline
            (lines ++
             [if writable h (save_path (Py.strip save_name))
              then "Saved " +:+ dquote +:+ save_path (Py.strip save_name) +:+ dquote
              else "Error saving " +:+ dquote +:+ save_path (Py.strip save_name)
                   +:+ dquote +:+ " (filename might be invalid)";
              "Reloading all embeddings"])%list, h') /\
    h' = reload (default h (save_file h new_emb (save_path (Py.strip save_name)))) /\
    reloads h' = S (reloads h) /\
    dir_mtime h' = Some 0 /\
    word_embeddings h' = load_textual_inversion_embeddings (files h') /\
    (writable h (save_path (Py.strip save_name)) = false -> h' = reload h).
Proof.
  intros Hname Hover Hrun Htot.
  destruct (do_save_after_mix h names mixvals global_mul concat_mode save_name
              enable_overwrite step_text st tot Hname Hover Hrun Htot)
    as (lines & new_emb & _ & _ & _ & Hsave).
  exists lines, new_emb. eexists. split; [exact Hsave|].
  split; [reflexivity|]. unfold save_file.
  destruct (writable h (save_path (Py.strip save_name))); simpl;
    repeat split; try reflexivity; discriminate.
Qed.

End MixerClaims.

(** ** Mini-tokenizer *)

(** C9 (amended).  For an input that is empty after trimming, on a host
    whose tokenizer yields no ID for the empty text, the token string is
    empty; with send-to-mix off the six slots and the concat flag come back
    as given, and with send-to-mix on all six slots are emptied and concat
    mode is switched on. *)
Theorem minitokenize_empty h mix_inputs concat_mode mini_sendtomix mini_input :
  Py.strip mini_input = EmptyString ->
  text_to_emb_ids EmptyString (get_data h).1.1 = Some [] ->
  length mix_inputs = MAX_NUM_MIX ->
  do_minitokenize h mix_inputs concat_mode mini_sendtomix mini_input =
    Ok (if mini_sendtomix then replicate MAX_NUM_MIX EmptyString else mix_inputs,
        if mini_sendtomix then true else concat_mode,
        EmptyString).
Proof.
  intros Hin Htok Hlen. unfold do_minitokenize. rewrite Hin.
  destruct (get_data h) as [[tokenizer internal_embs] loaded_embs].
  simpl in Htok. rewrite Htok.
  do 7 (destruct mix_inputs as [|? mix_inputs]; try discriminate).
  destruct mini_sendtomix; reflexivity.
Qed.

(** ** The claims on the concrete host *)

Lemma concat_two_entries_witness :
  exists log h' saved,
    do_save (K := Demo.kernels) Demo.small_host (Demo.six "cat" "duo") Demo.ones
      (Demo.q 2) true "duo" true EmptyString = Ok (log, h') /\
    files h' !! save_path (Py.strip "duo") = Some saved /\
    vec saved =
      scale (Tensor 2 (rows (scale (unsqueeze [Demo.q 1; Demo.q 0]) (Demo.q 1))
                       ++ rows (scale (vec Demo.duo) (Demo.q 1)))%list)
        (Demo.q 2) /\
    shape0 (vec saved) = (1 + 2)%nat.
Proof.
  refine (proj2 (proj2
    (concat_two_entries (K := Demo.kernels) Demo.small_host
       (Demo.six "cat" "duo") Demo.ones (Demo.q 2) "duo" true EmptyString
       "cat" (Demo.q 1) "duo" (Demo.q 1)
       "cat" (IdInt 0) (unsqueeze [Demo.q 1; Demo.q 0]) None
       "duo" (IdStr "[c0de]") (vec Demo.duo) (Some Demo.duo)
       _ _ _ _ _ _)) _ _ _).
  - reflexivity.
  - reflexivity.
  - vm_compute. reflexivity.
  - vm_compute. reflexivity.
  - vm_compute. reflexivity.
  - reflexivity.
  - vm_compute. discriminate.
  - intros _. reflexivity.
  - vm_compute. reflexivity.
Defined.

Lemma sum_of_opposites_is_zero_witness :
  exists log h' saved,
    do_save (K := Demo.kernels) Demo.small_host (Demo.six "duo" "duo")
      Demo.plus_minus 1%Qc false "zero" false EmptyString = Ok (log, h') /\
    files h' !! save_path (Py.strip "zero") = Some saved /\
    vec saved = zeros (Nat.max 1 (shape0 (vec Demo.duo))) (cols (vec Demo.duo)).
Proof.
  refine (proj2
    (sum_of_opposites_is_zero (K := Demo.kernels) Demo.small_host
       (Demo.six "duo" "duo") Demo.plus_minus "zero" false EmptyString
       "duo" "duo" (vec Demo.duo)
       "duo" (IdStr "[c0de]") (Some Demo.duo)
       "duo" (IdStr "[c0de]") (Some Demo.duo)
       _ _ _ _ _ _) _ _ _).
  - reflexivity.
  - reflexivity.
  - vm_compute. reflexivity.
  - vm_compute. reflexivity.
  - vm_compute. reflexivity.
  - unfold well_shaped. simpl. repeat constructor.
  - vm_compute. discriminate.
  - intros [e He]. vm_compute in He. discriminate He.
  - vm_compute. reflexivity.
Defined.

Lemma save_existing_without_overwrite_witness :
  do_save (K := Demo.kernels) Demo.small_host (Demo.six "cat" "dog") Demo.ones
    (Demo.q 1) false "duo" false EmptyString =
  Ok ("File already exists, overwrite not enabled, aborting save.",
      Demo.small_host).
Proof.
  apply (save_existing_without_overwrite (K := Demo.kernels) Demo.small_host
           (Demo.six "cat" "dog") Demo.ones (Demo.q 1) false "duo" EmptyString).
  exists Demo.duo. vm_compute. reflexivity.
Defined.

Lemma save_always_reloads_witness :
  exists lines new_emb h',
    do_save (K := Demo.kernels) Demo.small_host (Demo.six "cat" "dog") Demo.ones
      (Demo.q 1) false "no/dir" false EmptyString =
      Ok (Py.join newline
            (lines ++
             ["Error saving " +:+ dquote +:+ "embeddings/no/dir.bin" +:+ dquote
              +:+ " (filename might be invalid)";
              "Reloading all embeddings"])%list, h') /\
    h' = reload (K := Demo.kernels)
           (default Demo.small_host
              (save_file Demo.small_host new_emb "embeddings/no/dir.bin")) /\
    reloads h' = 1%nat /\
    dir_mtime h' = Some 0 /\
    word_embeddings h' =
      load_textual_inversion_embeddings (Kernels := Demo.kernels) (files h') /\
    (writable Demo.small_host "embeddings/no/dir.bin" = false ->
     h' = reload (K := Demo.kernels) Demo.small_host).
Proof.
  eapply (save_always_reloads (K := Demo.kernels) Demo.small_host
            (Demo.six "cat" "dog") Demo.ones (Demo.q 1) false "no/dir" false
            EmptyString).
  - vm_compute. discriminate.
  - intros [e He]. vm_compute in He. discriminate He.
  - vm_compute. reflexivity.
  - reflexivity.
Defined.

Lemma minitokenize_empty_witness :
  do_minitokenize Demo.small_host Demo.slots false false "  " =
    Ok (Demo.slots, false, EmptyString).
Proof.
  apply (minitokenize_empty Demo.small_host Demo.slots false false "  ").
  - vm_compute. reflexivity.
  - vm_compute. reflexivity.
  - reflexivity.
Defined.

(** C1.  The name [Demo.zwsp] is not empty after trimming, has weight 1 and
    gets no token from the tokenizer: the resolver returns the all-[None]
    tuple, which [do_inspect] reports as a message, while [do_save] raises
    [AttributeError] and loses the whole mix, although the entry before it
    resolves and mixes on its own. *)
Theorem save_aborts_on_unresolved_entry :
  Py.strip Demo.zwsp = Demo.zwsp /\
  get_embedding_info (K := Demo.kernels) Demo.small_host Demo.zwsp = Ok None /\
  do_inspect (K := Demo.kernels) Demo.small_host Demo.zwsp = Ok "An error occurred" /\
  log_of (do_save (K := Demo.kernels) Demo.small_host (Demo.six "cat" EmptyString)
            Demo.ones (Demo.q 1) false "new" false EmptyString)
    = Some (Py.join newline
              ["+ cat(0) x 1/1"; "Saved " +:+ dquote +:+ "embeddings/new.bin" +:+ dquote;
               "Reloading all embeddings"]) /\
  do_save (K := Demo.kernels) Demo.small_host (Demo.six "cat" Demo.zwsp)
    Demo.ones (Demo.q 1) false "new" false EmptyString = Raise AttributeError /\
  do_save (K := Demo.kernels) Demo.small_host (Demo.six "cat" Demo.zwsp)
    Demo.ones (Demo.q 1) true "new" false EmptyString = Raise AttributeError.
Proof. repeat split; vm_compute; reflexivity. Qed.

(** C5, as stated, fails: in concat mode the one-row entry [wide] of
    per-row dimension 3 is skipped after the two-row entry [duo] of
    dimension 2, so the saved vector has 2 rows, not 2 + 1. *)
Lemma concat_dimension_mismatch_counterexample :
  get_embedding_info (K := Demo.kernels) Demo.small_host "duo" =
    Ok (Some ("duo", IdStr "[c0de]", vec Demo.duo, Some Demo.duo)) /\
  get_embedding_info (K := Demo.kernels) Demo.small_host "wide" =
    Ok (Some ("wide", IdStr "[c0de]", vec Demo.wide, Some Demo.wide)) /\
  shape0 (vec Demo.duo) = 2%nat /\ shape0 (vec Demo.wide) = 1%nat /\
  log_of (do_save (K := Demo.kernels) Demo.small_host (Demo.six "duo" "wide")
            Demo.ones (Demo.q 1) true "new" false EmptyString)
    = Some (Py.join newline
              ["> duo([c0de]) x 1/1";
               "! Vector size is not compatible, skipping wide([c0de])";
               "Saved " +:+ dquote +:+ "embeddings/new.bin" +:+ dquote;
               "Reloading all embeddings"]) /\
  shape0 <$> saved_vec
    (do_save (K := Demo.kernels) Demo.small_host (Demo.six "duo" "wide")
       Demo.ones (Demo.q 1) true "new" false EmptyString)
    "embeddings/new.bin" = Some 2%nat.
Proof. repeat split; vm_compute; reflexivity. Qed.

(** C7, as stated, fails: [cat] and [dog] resolve to vectors of the same
    dimension and row count, and their sum with weights 1 and -1 is the
    difference of the two rows, not zeros. *)
Lemma sum_of_two_rows_counterexample :
  get_embedding_info (K := Demo.kernels) Demo.small_host "cat" =
    Ok (Some ("cat", IdInt 0, Tensor 2 [[Demo.q 1; Demo.q 0]], None)) /\
  get_embedding_info (K := Demo.kernels) Demo.small_host "dog" =
    Ok (Some ("dog", IdInt 1, Tensor 2 [[Demo.q 0; Demo.q 1]], None)) /\
  saved_vec
    (do_save (K := Demo.kernels) Demo.small_host (Demo.six "cat" "dog")
       Demo.plus_minus 1%Qc false "new" false EmptyString)
    "embeddings/new.bin" = Some (Tensor 2 [[Demo.q 1; Demo.q (-1)]]) /\
  Tensor 2 [[Demo.q 1; Demo.q (-1)]] <> zeros 1 2.
Proof.
  repeat split; try (vm_compute; reflexivity).
  intros H. vm_compute in H. discriminate H.
Qed.

(** C6, as stated, fails: the empty filename has the existing target path
    [embeddings/.bin] and overwrite is off, and the message is the one for
    an empty filename. *)
Lemma save_empty_filename_counterexample :
  files Demo.small_host !! save_path (Py.strip EmptyString) = Some Demo.duo /\
  do_save (K := Demo.kernels) Demo.small_host (Demo.six "cat" "dog") Demo.ones
    (Demo.q 1) false EmptyString false EmptyString =
  Ok ("Filename is empty", Demo.small_host).
Proof. split; vm_compute; reflexivity. Qed.

(** C9, as stated, fails: with send-to-mix on, tokenizing the empty input
    empties all six slots and switches concat mode on. *)
Lemma minitokenize_empty_clears_counterexample :
  do_minitokenize Demo.small_host Demo.slots false true EmptyString =
    Ok ([EmptyString; EmptyString; EmptyString; EmptyString; EmptyString;
         EmptyString], true, EmptyString) /\
  [EmptyString; EmptyString; EmptyString; EmptyString; EmptyString; EmptyString]
    <> Demo.slots.
Proof. split; [vm_compute; reflexivity | discriminate]. Qed.

(** ** Further facts: resolver *)

Section ResolverMore.
Context `{K : Kernels}.

Lemma no_space_str (i : Z) : no_space (Py.str i) = true.
Proof.
  unfold Py.str. destruct i as [|p|p]; simpl; [reflexivity| |].
  - destruct (Pos.to_uint p) eqn:E; simpl;
      try (rewrite PyFacts.no_space_string_of_uint; reflexivity).
    reflexivity.
  - destruct (Pos.to_uint p) eqn:E; simpl;
      try (rewrite PyFacts.no_space_string_of_uint; reflexivity).
    reflexivity.
Qed.

Lemma int_str_neg (p : positive) : Py.int (Py.str (Z.neg p)) = Some (Z.neg p).
Proof.
  unfold Py.int. rewrite PyFacts.strip_no_space by apply no_space_str.
  unfold Py.str. simpl.
  assert (Hn : Pos.to_uint p <> Nil) by apply Unsigned.to_uint_nonnil.
  assert (Hs : NilZero.string_of_uint (Pos.to_uint p)
               = NilEmpty.string_of_uint (Pos.to_uint p)).
  { revert Hn. generalize (Pos.to_uint p). intros d Hd.
    destruct d; congruence || reflexivity. }
  rewrite Hs, (PyFacts.int_digits_numeral _ 0 Hn).
  rewrite PyFacts.uint_value_0, Unsigned.of_to. reflexivity.
Qed.

Lemma int_str_all (i : Z) : Py.int (Py.str i) = Some i.
Proof.
  destruct i as [|p|p]; [reflexivity| |apply int_str_neg].
  apply PyFacts.int_str. lia.
Qed.

(** X1.  On the printed form of any integer [i], the [#nnnnn] branch yields
    [i] exactly when [i] is a vocabulary index; a negative or too large
    number is dropped and the text goes to the tokenizer. *)
Theorem hash_val_printed internal_embs (i : Z) :
  hash_val ("#" +:+ Py.str i) (Some internal_embs) =
    if bool_decide (0 <= i < Z.of_nat (shape0 internal_embs)) then Some i else None.
Proof.
  unfold hash_val.
  change (Py.after_hash ("#" +:+ Py.str i)) with (Some (Py.str i)).
  cbv beta iota. rewrite int_str_all.
  case_bool_decide as Hr.
  - destruct (Z.ltb_spec i 0); [lia|].
    destruct (Z.geb_spec i (Z.of_nat (shape0 internal_embs))); [lia|].
    reflexivity.
  - destruct (Z.ltb_spec i 0); [reflexivity|].
    destruct (Z.geb_spec i (Z.of_nat (shape0 internal_embs))); [reflexivity|lia].
Qed.

(** X2.  A text that is no loaded key and no valid [#nnnnn] and for which
    the tokenizer produces no ID makes [do_inspect] return its error
    message; nothing is raised. *)
Theorem inspect_empty_tokenization h text tokenizer internal_embs loaded_embs :
  Py.strip text <> EmptyString ->
  get_data h = (tokenizer, internal_embs, loaded_embs) ->
  loaded_embs !! Py.strip text = None ->
  hash_val (Py.strip text) internal_embs = None ->
  text_to_emb_ids (Py.strip text) tokenizer = Some [] ->
  get_embedding_info h (Py.strip text) = Ok None /\
  do_inspect h text = Ok "An error occurred".
Proof.
  intros Htext Hdata Hkey Hhash Htok.
  assert (Hinfo : get_embedding_info h (Py.strip text) = Ok None).
  { unfold get_embedding_info. rewrite Hdata, Hkey, Hhash, Htok. reflexivity. }
  split; [exact Hinfo|].
  unfold do_inspect. rewrite decide_False by exact Htext.
  rewrite Hinfo. reflexivity.
Qed.

(** X3.  With an embedder of an unsupported class [do_inspect] never
    produces a report for a non-empty text: a loaded key fails on the
    missing embedding matrix ([AttributeError]), any other text on the
    missing tokenizer ([TypeError]). *)
Theorem inspect_unsupported_model h text :
  wrapped h = OtherEmbedder ->
  Py.strip text <> EmptyString ->
  do_inspect h text =
    Raise (if bool_decide (is_Some (word_embeddings h !! Py.strip text))
           then AttributeError else TypeError).
Proof.
  intros Hw Htext. unfold do_inspect. rewrite decide_False by exact Htext.
  unfold get_embedding_info, get_data. rewrite Hw.
  destruct (word_embeddings h !! Py.strip text) as [e|] eqn:He.
  - rewrite bool_decide_eq_true_2 by eauto. reflexivity.
  - rewrite bool_decide_eq_false_2 by (intros [x Hx]; discriminate).
    assert (Hh : hash_val (Py.strip text) None = None).
    { unfold hash_val. destruct (Py.after_hash (Py.strip text)); [|reflexivity].
      destruct (Py.int s); reflexivity. }
    rewrite Hh. reflexivity.
Qed.

(** X4.  Only the first token counts: two texts that are neither loaded
    keys nor valid [#nnnnn] forms and whose tokenizations start with the
    same ID resolve to the same result. *)
Theorem resolve_first_token_only h t1 t2 tokenizer internal_embs loaded_embs
    (i : Z) rest1 rest2 :
  get_data h = (tokenizer, internal_embs, loaded_embs) ->
  loaded_embs !! t1 = None -> loaded_embs !! t2 = None ->
  hash_val t1 internal_embs = None -> hash_val t2 internal_embs = None ->
  text_to_emb_ids t1 tokenizer = Some (i :: rest1) ->
  text_to_emb_ids t2 tokenizer = Some (i :: rest2) ->
  get_embedding_info h t1 = get_embedding_info h t2.
Proof.
  intros Hdata Hk1 Hk2 Hh1 Hh2 Ht1 Ht2.
  unfold get_embedding_info.
  rewrite Hdata, Hk1, Hk2, Hh1, Hh2, Ht1, Ht2. reflexivity.
Qed.

Lemma decode_bytes_missing bd s :
  (exists c, c ∈ s /\ bd !! c = None) -> decode_bytes bd s = Raise KeyError.
Proof.
  induction s as [|c s IH]; intros (x & Hx & Hnone).
  - apply elem_of_nil in Hx. contradiction.
  - simpl. destruct (bd !! c) as [b|] eqn:Hc; [|reflexivity].
    rewrite IH; [reflexivity|].
    apply elem_of_cons in Hx as [->|Hx]; [congruence|]. eauto.
Qed.

(** X5.  For an ID the decoder knows, [emb_id_to_name] returns the UTF-8
    decoding of the bytes its code points map to, and raises [KeyError] as
    soon as one code point is missing from the byte table. *)
Theorem emb_id_to_name_known (emb_id : Z) tk s :
  decoder tk !! emb_id = Some s ->
  (forall bs, Forall2 (fun c b => byte_decoder tk !! c = Some b) s bs ->
     emb_id_to_name emb_id (Some tk) = Ok (utf8_backslashreplace bs)) /\
  ((exists c, c ∈ s /\ byte_decoder tk !! c = None) ->
     emb_id_to_name emb_id (Some tk) = Raise KeyError).
Proof.
  intros Hs. unfold emb_id_to_name. rewrite Hs. split.
  - intros bs Hbs. rewrite (decode_bytes_ok _ _ _ Hbs). reflexivity.
  - intros Hmiss. rewrite (decode_bytes_missing _ _ Hmiss). reflexivity.
Qed.

End ResolverMore.

(** ** Further facts: inspector *)

Section InspectorMore.
Context `{K : Kernels}.

Lemma torch_sort_desc_ids scores :
  (torch_sort_desc scores).*2 ≡ₚ Z.of_nat <$> seq 0 (length scores).
Proof.
  rewrite torch_sort_desc_perm.
  rewrite snd_zip; [reflexivity|].
  rewrite length_fmap, length_seq. lia.
Qed.

(** X6.  The neighbours listed for a row are pairwise distinct vocabulary
    IDs. *)
Theorem best_ids_distinct all_embs vec_v : NoDup (best_ids_of all_embs vec_v).
Proof.
  unfold best_ids_of.
  apply (sublist_NoDup _ ((torch_sort_desc (cos_scores all_embs vec_v)).*2));
    [|apply sublist_take].
  rewrite torch_sort_desc_ids.
  apply (NoDup_fmap_2 Z.of_nat), NoDup_seq.
Qed.

(** X7.  The listed neighbours are the best ones: a vocabulary ID that is
    not listed has no larger similarity than any listed ID. *)
Theorem best_ids_optimal all_embs vec_v (id id' : Z) :
  id ∈ best_ids_of all_embs vec_v ->
  0 <= id' < Z.of_nat (shape0 all_embs) ->
  id' ∉ best_ids_of all_embs vec_v ->
  (score_of all_embs vec_v id' <= score_of all_embs vec_v id)%Qc.
Proof.
  intros Hin Hvalid Hout.
  apply list_elem_of_lookup in Hin as [a Ha].
  pose proof (lookup_lt_Some _ _ _ Ha) as Hlt.
  destruct (best_ids_lookup _ _ _ _ Ha) as [Hla _].
  set (scores := cos_scores all_embs vec_v) in *.
  assert (Hs : exists s, scores !! Z.to_nat id' = Some s).
  { apply lookup_lt_is_Some_2. unfold scores, cos_scores.
    rewrite length_map. unfold shape0 in Hvalid. lia. }
  destruct Hs as [s Hs].
  assert (Hin' : (s, id') ∈ torch_sort_desc scores).
  { apply torch_sort_desc_elem. split; [lia|exact Hs]. }
  apply list_elem_of_lookup in Hin' as [b Hb].
  assert (Hsc : s = score_of all_embs vec_v id').
  { unfold score_of. fold scores. rewrite Hs. reflexivity. }
  subst s.
  destruct (decide (b < MAX_SIMILAR_EMBS)%nat) as [Hb30|Hb30].
  - exfalso. apply Hout. apply list_elem_of_lookup. exists b.
    unfold best_ids_of. fold scores.
    rewrite lookup_take_lt by exact Hb30.
    rewrite list_lookup_fmap, Hb. reflexivity.
  - unfold best_ids_of in Hlt. rewrite length_take in Hlt.
    assert (Hab : (a < b)%nat) by lia.
    exact (sorted_lookup not_below _ a b _ _
             (torch_sort_desc_sorted scores) Hab Hla Hb).
Qed.

Lemma similar_names_short tokenizer name_of best (a n : nat) :
  (forall id, id ∈ best -> emb_id_to_name id tokenizer = Ok (name_of id)) ->
  (a <= length best)%nat -> (length best < a + n)%nat ->
  similar_names tokenizer best (seq a n) = Raise IndexError.
Proof.
  intros Hnames. revert a. induction n as [|n IH]; intros a Hle Hlt; [lia|].
  simpl. destruct (best !! a) as [id|] eqn:Hid; [|reflexivity].
  rewrite (Hnames id) by (apply list_elem_of_lookup; eauto). simpl.
  apply lookup_lt_Some in Hid. rewrite IH by lia. reflexivity.
Qed.

(** X8.  With fewer than [MAX_SIMILAR_EMBS] vocabulary rows, every row of
    the vocabulary's width ends the inspection in [IndexError] (the names
    of the vocabulary decoding without error). *)
Theorem inspect_row_short_vocabulary tokenizer all_embs (v : nat) vec_v name_of :
  (shape0 all_embs < MAX_SIMILAR_EMBS)%nat ->
  length vec_v = shape1 all_embs ->
  (forall id, 0 <= id < Z.of_nat (shape0 all_embs) ->
     emb_id_to_name id tokenizer = Ok (name_of id)) ->
  inspect_row tokenizer all_embs v vec_v = Raise IndexError.
Proof.
  intros Hn Hdim Hnames. unfold inspect_row.
  rewrite decide_False by (intros Hne; exact (Hne Hdim)).
  rewrite (similar_names_short tokenizer name_of); [reflexivity| | |].
  - intros id Hid. apply list_elem_of_lookup in Hid as [a Ha].
    apply Hnames. exact (proj2 (best_ids_lookup _ _ _ _ Ha)).
  - lia.
  - unfold best_ids_of, cos_scores.
    rewrite length_take, length_fmap, torch_sort_desc_length, length_map.
    unfold shape0, MAX_SIMILAR_EMBS in *. lia.
Qed.

Lemma strip_hash_str (i : Z) : Py.strip ("#" +:+ Py.str i) = "#" +:+ Py.str i.
Proof.
  apply PyFacts.strip_no_space.
  change (no_space ("#" +:+ Py.str i)) with (true && no_space (Py.str i)).
  rewrite no_space_str. reflexivity.
Qed.

(** X9.  On a host with a well-shaped vocabulary of at least 30 rows whose
    names decode, inspecting ["#"+str(i)] for a vocabulary index [i] that no
    loaded embedding shadows returns a complete report: the header of an
    internal embedding with one vector, the vector line and the 30
    neighbours. *)
Theorem inspect_hash_id_report h tokenizer all_embs loaded_embs (i : Z) row name_of :
  get_data h = (tokenizer, Some all_embs, loaded_embs) ->
  well_shaped all_embs ->
  (MAX_SIMILAR_EMBS <= shape0 all_embs)%nat ->
  0 <= i < Z.of_nat (shape0 all_embs) ->
  rows all_embs !! Z.to_nat i = Some row ->
  loaded_embs !! ("#" +:+ Py.str i) = None ->
  (forall id, 0 <= id < Z.of_nat (shape0 all_embs) ->
     emb_id_to_name id tokenizer = Ok (name_of id)) ->
  do_inspect h ("#" +:+ Py.str i) =
    Ok (Py.join newline
          (inspect_header (name_of i, IdInt i, unsqueeze row, None) ++
           [vector_line 0 row; EmptyString; "Similar embeddings:";
            Py.join "   " (map (fun id => name_id (name_of id) (IdInt id))
                               (best_ids_of all_embs row));
            SEP_STR])%list).
Proof.
  intros Hdata Hwf Hn Hi Hrow Hkey Hnames.
  assert (Hlen : length row = shape1 all_embs).
  { unfold well_shaped in Hwf. rewrite Forall_forall in Hwf.
    apply Hwf. apply list_elem_of_lookup. eauto. }
  destruct (index_in_range all_embs i Hi) as (row' & Hrow' & Hidx).
  rewrite Hrow in Hrow'. inversion Hrow'; subst row'.
  assert (Hinfo : get_embedding_info h ("#" +:+ Py.str i) =
            Ok (Some (name_of i, IdInt i, unsqueeze row, None))).
  { unfold get_embedding_info. rewrite Hdata, Hkey.
    rewrite (hash_val_str all_embs i Hi). simpl.
    rewrite (Hnames i Hi). simpl. rewrite Hidx. reflexivity. }
  unfold do_inspect. rewrite strip_hash_str.
  rewrite decide_False by discriminate.
  rewrite Hinfo. cbn [and_then]. rewrite Hdata.
  simpl rows. simpl inspect_rows. unfold inspect_row.
  rewrite decide_False by (intros Hne; exact (Hne Hlen)).
  pose proof (best_ids_length all_embs row Hn) as Hbl.
  rewrite (similar_names_ok tokenizer name_of).
  - simpl. rewrite drop_0, <- Hbl, firstn_all. reflexivity.
  - intros id Hid. apply list_elem_of_lookup in Hid as [a Ha].
    apply Hnames. exact (proj2 (best_ids_lookup _ _ _ _ Ha)).
  - rewrite Hbl. simpl. lia.
Qed.

End InspectorMore.

(** ** Further facts: mini-tokenizer *)

Section MiniTokenizerMore.

Lemma send_ids_off found_ids (i : nat) l r :
  send_ids false found_ids i l r = Ok (l, (r ++ map id_token found_ids)%list).
Proof.
  revert i r. induction found_ids as [|x ids IH]; intros i r; simpl.
  - rewrite app_nil_r. reflexivity.
  - rewrite IH, <- app_assoc. reflexivity.
Qed.

Lemma send_ids_full found_ids (i : nat) l r :
  (MAX_NUM_MIX <= i)%nat ->
  send_ids true found_ids i l r = Ok (l, (r ++ map id_token found_ids)%list).
Proof.
  revert i r. induction found_ids as [|x ids IH]; intros i r Hi; simpl.
  - rewrite app_nil_r. reflexivity.
  - rewrite bool_decide_eq_false_2 by lia. simpl.
    rewrite IH by lia. rewrite <- app_assoc. reflexivity.
Qed.

(** X10.  With send-to-mix off the mini-tokenizer only prints: the slots
    and the concat flag come back as given, and the result is the [#id]
    tokens of the tokenizer's IDs, in order, separated by spaces. *)
Theorem minitokenize_prints h mix_inputs concat_mode mini_input found_ids :
  text_to_emb_ids (Py.strip mini_input) (get_data h).1.1 = Some found_ids ->
  length mix_inputs = MAX_NUM_MIX ->
  do_minitokenize h mix_inputs concat_mode false mini_input =
    Ok (mix_inputs, concat_mode, Py.join " " (map id_token found_ids)).
Proof.
  intros Htok Hlen. unfold do_minitokenize.
  destruct (get_data h) as [[tokenizer internal_embs] loaded_embs].
  simpl in Htok. rewrite Htok, send_ids_off. simpl.
  rewrite firstn_all2 by lia. reflexivity.
Qed.

(** X11.  With send-to-mix on, the six slots receive the first six [#id]
    tokens in order, the slots beyond the token count are emptied, concat
    mode is switched on, and every token is printed. *)
Theorem minitokenize_sends h mix_inputs concat_mode mini_input found_ids :
  text_to_emb_ids (Py.strip mini_input) (get_data h).1.1 = Some found_ids ->
  length mix_inputs = MAX_NUM_MIX ->
  do_minitokenize h mix_inputs concat_mode true mini_input =
    Ok (take MAX_NUM_MIX
          (map id_token found_ids ++ replicate MAX_NUM_MIX EmptyString)%list,
        true, Py.join " " (map id_token found_ids)).
Proof.
  intros Htok Hlen. unfold do_minitokenize.
  destruct (get_data h) as [[tokenizer internal_embs] loaded_embs].
  simpl in Htok. rewrite Htok.
  do 7 (destruct mix_inputs as [|? mix_inputs]; try discriminate).
  clear Hlen Htok.
  do 6 (destruct found_ids as [|? found_ids]; [reflexivity|]).
  cbn [take MAX_NUM_MIX].
  cbn [send_ids and_then andb bool_decide decide_rel]. simpl.
  rewrite send_ids_full by (unfold MAX_NUM_MIX; lia).
  reflexivity.
Qed.

End MiniTokenizerMore.

(** ** Further facts: mixer *)

Section MixerMore.
Context `{K : Kernels}.

Lemma mix_list_app h concat_mode pre post st :
  mix_list h concat_mode (pre ++ post) st =
    (let! st' := mix_list h concat_mode pre st in mix_list h concat_mode post st').
Proof.
  revert st. induction pre as [|e pre IH]; intros st; simpl; [reflexivity|].
  destruct (mix_entry h concat_mode st e.1 e.2); simpl; [apply IH|reflexivity].
Qed.

(** The guards of [do_save] passed, what the loop raises is what the call
    raises. *)
Lemma do_save_mix_raises h names mixvals global_mul concat_mode
    save_name enable_overwrite step_text e :
  Py.strip save_name <> EmptyString ->
  (is_Some (files h !! save_path (Py.strip save_name)) -> enable_overwrite = true) ->
  mix_loop h concat_mode names mixvals (seq 0 MAX_NUM_MIX) {| vec_size := None; tot_vec := None; results := [] |} = Raise e ->
  do_save h names mixvals global_mul concat_mode save_name enable_overwrite step_text
    = Raise e.
Proof.
  intros Hname Hover Hrun. unfold do_save.
  rewrite bool_decide_eq_false_2 by exact Hname.
  set (path := save_path (Py.strip save_name)) in *.
  assert (Hgate : bool_decide (is_Some (files h !! path)) && negb enable_overwrite = false).
  { case_bool_decide as Hex; [|reflexivity]. rewrite (Hover Hex). reflexivity. }
  rewrite Hgate.
  match goal with
  | |- context [mix_loop _ _ _ _ _ {| vec_size := None; tot_vec := None; results := ?r |}] =>
      pose proof (mix_loop_same h concat_mode names mixvals (seq 0 MAX_NUM_MIX)
                    {| vec_size := None; tot_vec := None; results := [] |} {| vec_size := None; tot_vec := None; results := r |} (conj eq_refl eq_refl)) as H;
      rewrite Hrun in H;
      destruct (mix_loop h concat_mode names mixvals (seq 0 MAX_NUM_MIX) {| vec_size := None; tot_vec := None; results := r |})
        as [st'|e']; [contradiction|subst e']
  end.
  reflexivity.
Qed.

(** The guards passed and nothing mixed, the call reports it and leaves the
    host alone. *)
Lemma do_save_nothing_mixed h names mixvals global_mul concat_mode
    save_name enable_overwrite step_text st :
  Py.strip save_name <> EmptyString ->
  (is_Some (files h !! save_path (Py.strip save_name)) -> enable_overwrite = true) ->
  mix_loop h concat_mode names mixvals (seq 0 MAX_NUM_MIX) {| vec_size := None; tot_vec := None; results := [] |} = Ok st ->
  tot_vec st = None ->
  exists st',
    do_save h names mixvals global_mul concat_mode save_name enable_overwrite step_text
      = Ok (Py.join newline
              (results st' ++ ["No embeddings were mixed, nothing to save"])%list, h).
Proof.
  intros Hname Hover Hrun Htot. unfold do_save.
  rewrite bool_decide_eq_false_2 by exact Hname.
  set (path := save_path (Py.strip save_name)) in *.
  assert (Hgate : bool_decide (is_Some (files h !! path)) && negb enable_overwrite = false).
  { case_bool_decide as Hex; [|reflexivity]. rewrite (Hover Hex). reflexivity. }
  rewrite Hgate.
  match goal with
  | |- context [mix_loop _ _ _ _ _ {| vec_size := None; tot_vec := None; results := ?r |}] =>
      pose proof (mix_loop_same h concat_mode names mixvals (seq 0 MAX_NUM_MIX)
                    {| vec_size := None; tot_vec := None; results := [] |} {| vec_size := None; tot_vec := None; results := r |} (conj eq_refl eq_refl)) as H;
      rewrite Hrun in H;
      destruct (mix_loop h concat_mode names mixvals (seq 0 MAX_NUM_MIX) {| vec_size := None; tot_vec := None; results := r |})
        as [st'|e']; [|contradiction]
  end.
  destruct H as [_ Ht]. exists st'. cbn [and_then].
  rewrite <- Ht, Htot. reflexivity.
Qed.

(** X12.  When every slot is skipped (empty name or zero weight), a save
    request that passes the filename and overwrite checks ends with the
    nothing-to-save line and returns the host unchanged: no file is written
    and no reload is triggered. *)
Theorem save_nothing_to_mix h names mixvals global_mul concat_mode
    save_name enable_overwrite step_text :
  length names = MAX_NUM_MIX -> length mixvals = MAX_NUM_MIX ->
  active_entries names mixvals = [] ->
  Py.strip save_name <> EmptyString ->
  (is_Some (files h !! save_path (Py.strip save_name)) -> enable_overwrite = true) ->
  exists lines,
    do_save h names mixvals global_mul concat_mode save_name enable_overwrite step_text
      = Ok (Py.join newline
              (lines ++ ["No embeddings were mixed, nothing to save"])%list, h).
Proof.
  intros Hn Hv Hact Hname Hover.
  assert (Hrun : mix_loop h concat_mode names mixvals (seq 0 MAX_NUM_MIX) {| vec_size := None; tot_vec := None; results := [] |}
                 = Ok {| vec_size := None; tot_vec := None; results := [] |}).
  { rewrite mix_loop_active by assumption. rewrite Hact. reflexivity. }
  destruct (do_save_nothing_mixed h names mixvals global_mul concat_mode save_name
              enable_overwrite step_text _ Hname Hover Hrun eq_refl) as [st' Hs].
  exists (results st'). exact Hs.
Qed.

(** X13.  Whatever a save request does, it leaves every file other than
    its target path as it was, keeps the model, the tokenizer and the
    write permissions of the host, and triggers at most one reload. *)
Theorem save_frame h names mixvals global_mul concat_mode
    save_name enable_overwrite step_text log h' :
  do_save h names mixvals global_mul concat_mode save_name enable_overwrite step_text
    = Ok (log, h') ->
  (forall path, path <> save_path (Py.strip save_name) ->
     files h' !! path = files h !! path) /\
  wrapped h' = wrapped h /\
  open_clip_tokenizer h' = open_clip_tokenizer h /\
  writable h' = writable h /\
  (reloads h' = reloads h \/ reloads h' = S (reloads h)).
Proof.
  unfold do_save.
  destruct (bool_decide (Py.strip save_name = EmptyString));
    [intros H; inversion H; subst; repeat split; auto|].
  destruct (bool_decide (is_Some (files h !! save_path (Py.strip save_name)))
            && negb enable_overwrite);
    [intros H; inversion H; subst; repeat split; auto|].
  match goal with
  | |- context [mix_loop ?a ?b ?c ?d ?e ?f] => destruct (mix_loop a b c d e f) as [st|e0]
  end; cbn [and_then]; [|discriminate].
  destruct (tot_vec st) as [tot|];
    [|intros H; inversion H; subst; repeat split; auto].
  destruct (Py.int (Py.strip step_text)) as [s|];
    unfold save_file;
    destruct (writable h (save_path (Py.strip save_name)));
    intros H; inversion H; subst; simpl; repeat split; auto;
    intros path Hp; apply lookup_insert_ne; congruence.
Qed.

(** X14.  When the entries before it mix without error, a contributing
    entry for which the resolver returns nothing makes the whole save
    request raise [AttributeError]. *)
Theorem save_unresolved_entry_raises h names mixvals global_mul concat_mode
    save_name enable_overwrite step_text pre n w post st :
  length names = MAX_NUM_MIX -> length mixvals = MAX_NUM_MIX ->
  active_entries names mixvals = (pre ++ (n, w) :: post)%list ->
  mix_list h concat_mode pre {| vec_size := None; tot_vec := None; results := [] |} = Ok st ->
  get_embedding_info h (Py.strip n) = Ok None ->
  Py.strip save_name <> EmptyString ->
  (is_Some (files h !! save_path (Py.strip save_name)) -> enable_overwrite = true) ->
  do_save h names mixvals global_mul concat_mode save_name enable_overwrite step_text
    = Raise AttributeError.
Proof.
  intros Hn Hv Hact Hpre Hinfo Hname Hover.
  apply do_save_mix_raises; [assumption..|].
  rewrite mix_loop_active by assumption.
  rewrite Hact, mix_list_app, Hpre. simpl.
  assert (Ha : active (n, w) = true).
  { assert (Hin : (n, w) ∈ active_entries names mixvals).
    { rewrite Hact. apply elem_of_app. right. apply elem_of_cons. auto. }
    unfold active_entries in Hin. apply list_elem_of_filter in Hin as [Hin _].
    exact Hin. }
  rewrite (mix_entry_unresolved h concat_mode st n w Ha Hinfo). reflexivity.
Qed.

Lemma sum_into_first_ok v w :
  exists t, sum_into (cols v) None v w = Ok t /\
            cols t = cols v /\ shape0 t = Nat.max 1 (shape0 v).
Proof.
  rewrite sum_into_first. rewrite add_ok.
  - eexists. split; [reflexivity|]. split; [reflexivity|].
    unfold shape0. simpl.
    rewrite length_zip_with, length_replicate, length_map.
    pose proof (shape0_pad_rows v) as Hp. unfold shape0 in Hp. lia.
  - simpl. symmetry. apply cols_pad_rows.
  - rewrite shape0_zeros, shape0_scale. symmetry. apply shape0_pad_rows.
Qed.

Lemma mix_first_ok (concat_mode : bool) v w :
  exists t, (if concat_mode then concat_into None v w
             else sum_into (shape1 v) None v w) = Ok t /\ cols t = cols v.
Proof.
  destruct concat_mode.
  - exists (scale v w). split; reflexivity.
  - destruct (sum_into_first_ok v w) as (t & Ht & Hc & _). eauto.
Qed.

(** X15.  In sum mode and in concat mode alike, a second contributing
    entry whose per-row dimension differs from the first one's is skipped
    with a log line: the loop ends with the vector the first entry alone
    gives. *)
Theorem mix_skips_other_dimension h (concat_mode : bool) names mixvals n1 w1 n2 w2
    name1 id1 v1 loaded1 name2 id2 v2 loaded2 :
  length names = MAX_NUM_MIX -> length mixvals = MAX_NUM_MIX ->
  active_entries names mixvals = [(n1, w1); (n2, w2)] ->
  get_embedding_info h (Py.strip n1) = Ok (Some (name1, id1, v1, loaded1)) ->
  get_embedding_info h (Py.strip n2) = Ok (Some (name2, id2, v2, loaded2)) ->
  shape1 v1 <> shape1 v2 ->
  exists st first,
    (if concat_mode then concat_into None v1 w1
     else sum_into (shape1 v1) None v1 w1) = Ok first /\
    mix_loop h concat_mode names mixvals (seq 0 MAX_NUM_MIX) {| vec_size := None; tot_vec := None; results := [] |} = Ok st /\
    tot_vec st = Some first /\
    last (results st) =
      Some ("! Vector size is not compatible, skipping " +:+ name_id name2 id2).
Proof.
  intros Hn Hv Hact H1 H2 Hdim.
  assert (Ha : Forall (fun e => active e = true) [(n1, w1); (n2, w2)]).
  { rewrite <- Hact. unfold active_entries. apply Forall_forall.
    intros e He. apply list_elem_of_filter in He as [He _]. exact He. }
  apply Forall_cons in Ha as [Ha1 Ha]. apply Forall_cons in Ha as [Ha2 _].
  unfold active in Ha2. simpl in Ha2. apply negb_true_iff in Ha2.
  rewrite mix_loop_active by assumption. rewrite Hact. simpl.
  rewrite (mix_entry_resolved h concat_mode _ n1 w1 _ _ _ _ Ha1 H1) by exact I.
  destruct concat_mode; simpl.
  - unfold mix_entry. rewrite Ha2, H2. simpl.
    rewrite bool_decide_eq_true_2 by exact Hdim.
    eexists. eexists. repeat split.
  - destruct (sum_into_first_ok v1 w1) as (first & Hfirst & _).
    unfold shape1 at 1 2. rewrite Hfirst. simpl.
    unfold mix_entry. rewrite Ha2, H2. simpl.
    rewrite bool_decide_eq_true_2 by exact Hdim.
    eexists. exists first. repeat split.
Qed.

Lemma zeros_plus_rows (c : nat) (P : list (list Qc)) :
  Forall (fun r => length r = c) P ->
  zip_with (zip_with Qcplus) (replicate (length P) (replicate c 0%Qc)) P = P.
Proof.
  induction 1 as [|r P Hr _ IH]; simpl; [reflexivity|].
  rewrite IH. f_equal. subst c. clear.
  induction r as [|x r IH]; simpl; [reflexivity|].
  rewrite IH, Qcplus_0_l. reflexivity.
Qed.

(** X16.  With a single contributing entry of at least one row, sum mode
    and concat mode build the same vector: the entry times its weight. *)
Theorem mix_single_entry h concat_mode names mixvals n w name1 id1 v loaded1 :
  length names = MAX_NUM_MIX -> length mixvals = MAX_NUM_MIX ->
  active_entries names mixvals = [(n, w)] ->
  get_embedding_info h (Py.strip n) = Ok (Some (name1, id1, v, loaded1)) ->
  well_shaped v -> (1 <= shape0 v)%nat ->
  exists st,
    mix_loop h concat_mode names mixvals (seq 0 MAX_NUM_MIX) {| vec_size := None; tot_vec := None; results := [] |} = Ok st /\
    tot_vec st = Some (scale v w).
Proof.
  intros Hn Hv Hact H1 Hwf Hrows.
  assert (Ha : active (n, w) = true).
  { assert (Hin : (n, w) ∈ active_entries names mixvals)
      by (rewrite Hact; apply elem_of_cons; auto).
    unfold active_entries in Hin. apply list_elem_of_filter in Hin as [Hin _].
    exact Hin. }
  rewrite mix_loop_active by assumption. rewrite Hact. simpl.
  rewrite (mix_entry_resolved h concat_mode _ n w _ _ _ _ Ha H1) by exact I.
  simpl. destruct concat_mode; simpl.
  - eexists. split; reflexivity.
  - unfold shape1. rewrite sum_into_first.
    assert (Hp : pad_rows v = v).
    { unfold pad_rows. rewrite decide_False by lia. reflexivity. }
    rewrite Hp, add_ok.
    + simpl. eexists. split; [reflexivity|]. simpl. f_equal.
      unfold scale. f_equal.
      replace (Nat.max 1 (shape0 v)) with (length (map (map (fun x => (x * w)%Qc)) (rows v))).
      * apply zeros_plus_rows. apply Forall_map.
        eapply Forall_impl; [exact Hwf|].
        intros r Hr. simpl. rewrite length_map. exact Hr.
      * rewrite length_map. unfold shape0 in *. lia.
    + reflexivity.
    + rewrite shape0_zeros, shape0_scale. lia.
Qed.

Lemma sum_into_rows vsz t v w :
  cols t = vsz -> cols v = vsz ->
  exists t', sum_into vsz (Some t) v w = Ok t' /\
             cols t' = vsz /\ shape0 t' = Nat.max (shape0 t) (shape0 v).
Proof.
  intros Ht Hv. unfold sum_into. simpl default.
  destruct (decide (shape0 v ≠ shape0 t)) as [Hne|Heq].
  - destruct (decide (shape0 v < shape0 t)%nat) as [Hlt|Hge].
    + unfold cat. simpl cols. rewrite decide_True by exact Hv. simpl.
      rewrite add_ok.
      * eexists. split; [reflexivity|]. split; [exact Ht|].
        unfold shape0. simpl.
        rewrite length_zip_with, length_map, length_app, length_replicate.
        unfold shape0 in *. lia.
      * simpl. congruence.
      * unfold shape0. simpl.
        rewrite length_map, length_app, length_replicate.
        unfold shape0 in *. lia.
    + unfold cat. simpl cols. rewrite decide_True by exact Ht. simpl.
      rewrite add_ok.
      * eexists. split; [reflexivity|]. split; [exact Ht|].
        unfold shape0. simpl.
        rewrite length_zip_with, length_map, length_app, length_replicate.
        unfold shape0 in *. lia.
      * simpl. congruence.
      * unfold shape0. simpl.
        rewrite length_map, length_app, length_replicate.
        unfold shape0 in *. lia.
  - simpl. rewrite add_ok.
    + eexists. split; [reflexivity|]. split; [exact Ht|].
      unfold shape0. simpl. rewrite length_zip_with, length_map.
      unfold shape0 in *. lia.
    + simpl. congruence.
    + rewrite shape0_scale. destruct (decide (shape0 t = shape0 v)); [assumption|].
      exfalso. apply Heq. congruence.
Qed.

(** X17.  In sum mode two contributing entries of the same per-row
    dimension always combine, whatever their row counts [r1] and [r2]: the
    shorter side is zero-padded and the result has
    [max (max 1 r1) r2] rows of that dimension. *)
Theorem sum_pads_to_longest h names mixvals n1 w1 n2 w2
    name1 id1 v1 loaded1 name2 id2 v2 loaded2 :
  length names = MAX_NUM_MIX -> length mixvals = MAX_NUM_MIX ->
  active_entries names mixvals = [(n1, w1); (n2, w2)] ->
  get_embedding_info h (Py.strip n1) = Ok (Some (name1, id1, v1, loaded1)) ->
  get_embedding_info h (Py.strip n2) = Ok (Some (name2, id2, v2, loaded2)) ->
  shape1 v1 = shape1 v2 ->
  exists st tot,
    mix_loop h false names mixvals (seq 0 MAX_NUM_MIX) {| vec_size := None; tot_vec := None; results := [] |} = Ok st /\
    tot_vec st = Some tot /\
    cols tot = shape1 v1 /\
    shape0 tot = Nat.max (Nat.max 1 (shape0 v1)) (shape0 v2).
Proof.
  intros Hn Hv Hact H1 H2 Hdim.
  assert (Ha : Forall (fun e => active e = true) [(n1, w1); (n2, w2)]).
  { rewrite <- Hact. unfold active_entries. apply Forall_forall.
    intros e He. apply list_elem_of_filter in He as [He _]. exact He. }
  apply Forall_cons in Ha as [Ha1 Ha]. apply Forall_cons in Ha as [Ha2 _].
  destruct (sum_into_first_ok v1 w1) as (t1 & Ht1 & Hc1 & Hr1).
  destruct (sum_into_rows (shape1 v1) t1 v2 w2 Hc1 (eq_sym Hdim))
    as (t2 & Ht2 & Hc2 & Hr2).
  rewrite mix_loop_active by assumption. rewrite Hact. simpl.
  rewrite (mix_entry_resolved h false _ n1 w1 _ _ _ _ Ha1 H1) by exact I.
  simpl. unfold shape1 at 1. rewrite Ht1. simpl.
  rewrite (mix_entry_resolved h false _ n2 w2 _ _ _ _ Ha2 H2) by exact Hdim.
  simpl. rewrite Ht2. simpl.
  eexists. exists t2. repeat split; [exact Hc2|]. rewrite Hr2, Hr1. reflexivity.
Qed.

Lemma and_then_exn {A B} (c : outcome A) (f : A -> outcome B) e :
  exn_of c <> Some e -> (forall a, exn_of (f a) <> Some e) ->
  exn_of (and_then c f) <> Some e.
Proof. intros Hc Hf. destruct c as [a|e']; simpl; [apply Hf|exact Hc]. Qed.

Lemma decode_bytes_no_runtime bd s :
  exn_of (decode_bytes bd s) <> Some RuntimeError.
Proof.
  induction s as [|c s IH]; simpl; [discriminate|].
  destruct (bd !! c); [|discriminate].
  apply and_then_exn; [exact IH|discriminate].
Qed.

Lemma emb_id_to_name_no_runtime i tokenizer :
  exn_of (emb_id_to_name i tokenizer) <> Some RuntimeError.
Proof.
  unfold emb_id_to_name. destruct tokenizer as [tk|]; [|discriminate].
  destruct (decoder tk !! i) as [s|]; [|discriminate].
  apply and_then_exn; [apply decode_bytes_no_runtime|discriminate].
Qed.

Lemma index_no_runtime w i : exn_of (index w i) <> Some RuntimeError.
Proof.
  unfold index.
  destruct ((0 <=? (if i <? 0 then i + Z.of_nat (shape0 w) else i))
            && ((if i <? 0 then i + Z.of_nat (shape0 w) else i)
                <? Z.of_nat (shape0 w))); [|discriminate].
  destruct (rows w !! _); discriminate.
Qed.

Lemma get_embedding_info_no_runtime h text :
  exn_of (get_embedding_info h text) <> Some RuntimeError.
Proof.
  unfold get_embedding_info.
  destruct (get_data h) as [[tokenizer internal_embs] loaded_embs].
  destruct (loaded_embs !! text); [discriminate|].
  apply and_then_exn.
  - destruct (hash_val text internal_embs); [discriminate|].
    destruct (text_to_emb_ids text tokenizer) as [[|i ids]|]; discriminate.
  - intros [emb_id|]; [|discriminate].
    apply and_then_exn; [apply emb_id_to_name_no_runtime|]. intros nm.
    apply and_then_exn; [|discriminate].
    destruct internal_embs as [w|]; [apply index_no_runtime|discriminate].
Qed.

Lemma mix_entry_inv h concat_mode st arg_name mixval :
  mix_inv st ->
  match mix_entry h concat_mode st arg_name mixval with
  | Ok st' => mix_inv st'
  | Raise e => e <> RuntimeError
  end.
Proof.
  intros Hinv. unfold mix_entry.
  destruct (bool_decide (Py.strip arg_name = EmptyString) || bool_decide (mixval = 0%Qc));
    [exact Hinv|].
  pose proof (get_embedding_info_no_runtime h (Py.strip arg_name)) as Hg.
  destruct (get_embedding_info h (Py.strip arg_name)) as [[[[[nm i] v] l]|]|e];
    simpl; [| discriminate | simpl in Hg; congruence].
  destruct (vec_size st) as [vs|] eqn:Hvs; simpl.
  - case_bool_decide as Hne; [exact Hinv|].
    assert (Hvs' : vs = shape1 v) by (destruct (decide (vs = shape1 v)); tauto).
    subst vs. unfold mix_inv in Hinv. rewrite Hvs in Hinv.
    destruct concat_mode; simpl.
    + destruct (tot_vec st) as [t|]; simpl.
      * inversion Hinv as [Hc]. unfold cat. simpl cols.
        rewrite decide_True by (unfold shape1 in Hc; congruence).
        simpl. unfold mix_inv. simpl. congruence.
      * unfold mix_inv. reflexivity.
    + destruct (tot_vec st) as [t|]; simpl.
      * inversion Hinv as [Hc].
        destruct (sum_into_rows (shape1 v) t v mixval (eq_sym Hc) eq_refl)
          as (t' & Ht' & Hc' & _).
        rewrite Ht'. simpl. unfold mix_inv. simpl. congruence.
      * destruct (sum_into_first_ok v mixval) as (t' & Ht' & Hc' & _).
        unfold shape1. rewrite Ht'. simpl. unfold mix_inv. simpl. congruence.
  - unfold mix_inv in Hinv. destruct concat_mode; simpl.
    + destruct (tot_vec st) as [t|]; [congruence|]. simpl.
      unfold mix_inv. reflexivity.
    + destruct (tot_vec st) as [t|]; [congruence|]. simpl.
      destruct (sum_into_first_ok v mixval) as (t' & Ht' & Hc' & _).
      unfold shape1. rewrite Ht'. simpl. unfold mix_inv. simpl. congruence.
Qed.

Lemma mix_loop_inv h concat_mode names mixvals ks st :
  mix_inv st ->
  match mix_loop h concat_mode names mixvals ks st with
  | Ok st' => mix_inv st'
  | Raise e => e <> RuntimeError
  end.
Proof.
  revert st. induction ks as [|k ks IH]; intros st Hinv; simpl; [exact Hinv|].
  destruct (names !! k); [|discriminate].
  destruct (mixvals !! k); [|discriminate].
  pose proof (mix_entry_inv h concat_mode st s q Hinv) as He.
  destruct (mix_entry h concat_mode st s q) as [st'|e]; simpl;
    [apply IH; exact He|exact He].
Qed.

(** X18.  A save request never fails on tensor shapes: the width check and
    the zero padding of the loop keep [torch.cat] and the in-place addition
    within matching shapes, so [RuntimeError] is never raised. *)
Theorem save_never_shape_error h names mixvals global_mul concat_mode
    save_name enable_overwrite step_text :
  do_save h names mixvals global_mul concat_mode save_name enable_overwrite step_text
    <> Raise RuntimeError.
Proof.
  unfold do_save.
  destruct (bool_decide (Py.strip save_name = EmptyString)); [discriminate|].
  destruct (bool_decide (is_Some (files h !! save_path (Py.strip save_name)))
            && negb enable_overwrite); [discriminate|].
  match goal with
  | |- context [mix_loop ?a ?b ?c ?d ?e ?f] =>
      pose proof (mix_loop_inv a b c d e f I) as Hl;
      destruct (mix_loop a b c d e f) as [st|e0]
  end; cbn [and_then].
  - destruct (tot_vec st); [|discriminate].
    destruct (Py.int (Py.strip step_text));
      destruct (save_file h _ _); discriminate.
  - congruence.
Qed.

(** X19.  When the loop has mixed a vector and the write succeeds, the
    file at the target path holds a record named after the trimmed
    filename, whose vector is the mixed vector times the global multiplier
    and whose step is the step text read as an integer, or no step when the
    text is not an integer. *)
Theorem save_writes_record h names mixvals global_mul concat_mode
    save_name enable_overwrite step_text st tot :
  Py.strip save_name <> EmptyString ->
  (is_Some (files h !! save_path (Py.strip save_name)) -> enable_overwrite = true) ->
  mix_loop h concat_mode names mixvals (seq 0 MAX_NUM_MIX) {| vec_size := None; tot_vec := None; results := [] |} = Ok st ->
  tot_vec st = Some tot ->
  writable h (save_path (Py.strip save_name)) = true ->
  exists log h' saved,
    do_save h names mixvals global_mul concat_mode save_name enable_overwrite step_text
      = Ok (log, h') /\
    files h' !! save_path (Py.strip save_name) = Some saved /\
    name saved = Py.strip save_name /\
    vec saved = scale tot global_mul /\
    step saved = Py.int (Py.strip step_text).
Proof.
  intros Hname Hover Hrun Htot Hw.
  destruct (do_save_after_mix h names mixvals global_mul concat_mode save_name
              enable_overwrite step_text st tot Hname Hover Hrun Htot)
    as (lines & new_emb & Hnm & Hvec & Hstep & Hsave).
  eexists. eexists. exists new_emb. split; [exact Hsave|].
  split; [apply reload_written; exact Hw|]. auto.
Qed.

End MixerMore.

(** ** The further facts on the concrete hosts *)

Lemma inspect_empty_tokenization_witness :
  get_embedding_info (K := Demo.kernels) Demo.small_host (Py.strip Demo.zwsp) = Ok None /\
  do_inspect (K := Demo.kernels) Demo.small_host Demo.zwsp = Ok "An error occurred".
Proof.
  apply (inspect_empty_tokenization (K := Demo.kernels) Demo.small_host Demo.zwsp
           (Some Demo.clip) (Some Demo.vocab) (word_embeddings Demo.small_host)).
  - vm_compute. discriminate.
  - reflexivity.
  - vm_compute. reflexivity.
  - vm_compute. reflexivity.
  - vm_compute. reflexivity.
Defined.

Lemma inspect_unsupported_model_witness :
  do_inspect (K := Demo.kernels) Demo.bare_host "duo" = Raise AttributeError /\
  do_inspect (K := Demo.kernels) Demo.bare_host "cat" = Raise TypeError.
Proof.
  split.
  - refine (inspect_unsupported_model (K := Demo.kernels) Demo.bare_host "duo" _ _).
    + reflexivity.
    + vm_compute. discriminate.
  - refine (inspect_unsupported_model (K := Demo.kernels) Demo.bare_host "cat" _ _).
    + reflexivity.
    + vm_compute. discriminate.
Defined.

Lemma resolve_first_token_only_witness :
  get_embedding_info (K := Demo.kernels) Demo.small_host "cat" =
  get_embedding_info (K := Demo.kernels) Demo.small_host "cat dog".
Proof.
  apply (resolve_first_token_only (K := Demo.kernels) Demo.small_host
           "cat" "cat dog" (Some Demo.clip) (Some Demo.vocab)
           (word_embeddings Demo.small_host) 0 [] [1]).
  - reflexivity.
  - vm_compute. reflexivity.
  - vm_compute. reflexivity.
  - vm_compute. reflexivity.
  - vm_compute. reflexivity.
  - vm_compute. reflexivity.
  - vm_compute. reflexivity.
Defined.

Lemma emb_id_to_name_known_witness :
  emb_id_to_name (K := Demo.kernels) 0 (Some Demo.clip) = Ok "cat".
Proof.
  refine (proj1 (emb_id_to_name_known (K := Demo.kernels) 0 Demo.clip
                   (Demo.code_points "cat") _) (list_byte_of_string "cat") _).
  - vm_compute. reflexivity.
  - vm_compute. repeat constructor.
Defined.

Lemma best_ids_optimal_witness :
  (score_of (K := Demo.cosine_kernels) Demo.fan_vocab [Demo.q 1; Demo.q 31] 0
   <= score_of (K := Demo.cosine_kernels) Demo.fan_vocab [Demo.q 1; Demo.q 31] 31)%Qc.
Proof.
  apply (best_ids_optimal (K := Demo.cosine_kernels) Demo.fan_vocab
           [Demo.q 1; Demo.q 31] 31 0).
  - apply (bool_decide_eq_true_1 _). vm_compute. reflexivity.
  - vm_compute. split; [discriminate | reflexivity].
  - apply (bool_decide_eq_true_1 _). vm_compute. reflexivity.
Defined.

Lemma inspect_row_short_vocabulary_witness :
  inspect_row (K := Demo.kernels) (Some Demo.blank) Demo.vocab 0
    [Demo.q 1; Demo.q 0] = Raise IndexError.
Proof.
  apply (inspect_row_short_vocabulary (K := Demo.kernels) (Some Demo.blank)
           Demo.vocab 0 [Demo.q 1; Demo.q 0] (fun _ => "!Unknown ID!")).
  - vm_compute. lia.
  - reflexivity.
  - intros id _. reflexivity.
Defined.

Lemma inspect_hash_id_report_witness :
  exists report,
    do_inspect (K := Demo.kernels) Demo.big_host ("#" +:+ Py.str 31) = Ok report.
Proof.
  eexists.
  apply (inspect_hash_id_report (K := Demo.kernels) Demo.big_host
           (Some Demo.blank) Demo.big_vocab ∅ 31 [Demo.q 31]
           (fun _ => "!Unknown ID!")).
  - reflexivity.
  - unfold well_shaped. vm_compute. repeat constructor.
  - vm_compute. lia.
  - vm_compute. split; [discriminate | reflexivity].
  - vm_compute. reflexivity.
  - reflexivity.
  - intros id _. reflexivity.
Defined.

Lemma minitokenize_prints_witness :
  do_minitokenize Demo.small_host Demo.slots false false " cat dog " =
    Ok (Demo.slots, false, Py.join " " (map id_token [0; 1])).
Proof.
  apply (minitokenize_prints Demo.small_host Demo.slots false " cat dog " [0; 1]).
  - vm_compute. reflexivity.
  - reflexivity.
Defined.

Lemma minitokenize_sends_witness :
  do_minitokenize Demo.small_host Demo.slots false true " cat dog " =
    Ok (take MAX_NUM_MIX
          (map id_token [0; 1] ++ replicate MAX_NUM_MIX EmptyString)%list,
        true, Py.join " " (map id_token [0; 1])).
Proof.
  apply (minitokenize_sends Demo.small_host Demo.slots false " cat dog " [0; 1]).
  - vm_compute. reflexivity.
  - reflexivity.
Defined.

Lemma save_nothing_to_mix_witness :
  exists lines,
    do_save (K := Demo.kernels) Demo.small_host (Demo.six "cat" "dog") Demo.zeros6
      (Demo.q 1) false "new" false "x"
      = Ok (Py.join newline
              (lines ++ ["No embeddings were mixed, nothing to save"])%list,
            Demo.small_host).
Proof.
  apply (save_nothing_to_mix (K := Demo.kernels) Demo.small_host
           (Demo.six "cat" "dog") Demo.zeros6 (Demo.q 1) false "new" false "x").
  - reflexivity.
  - reflexivity.
  - vm_compute. reflexivity.
  - vm_compute. discriminate.
  - intros [e He]. vm_compute in He. discriminate He.
Defined.

Lemma save_frame_witness :
  exists log h',
    do_save (K := Demo.kernels) Demo.small_host (Demo.six "cat" "dog") Demo.ones
      (Demo.q 1) false "duo" true EmptyString = Ok (log, h') /\
    files h' !! "embeddings/.bin" = files Demo.small_host !! "embeddings/.bin".
Proof.
  destruct (do_save (K := Demo.kernels) Demo.small_host (Demo.six "cat" "dog")
              Demo.ones (Demo.q 1) false "duo" true EmptyString)
    as [[log h']|e] eqn:Hsave.
  - exists log, h'. split; [reflexivity|].
    apply (proj1 (save_frame (K := Demo.kernels) Demo.small_host
                    (Demo.six "cat" "dog") Demo.ones (Demo.q 1) false "duo" true
                    EmptyString log h' Hsave)).
    vm_compute. discriminate.
  - vm_compute in Hsave. discriminate Hsave.
Defined.

Lemma save_unresolved_entry_raises_witness :
  do_save (K := Demo.kernels) Demo.small_host (Demo.six "cat" Demo.zwsp) Demo.ones
    (Demo.q 1) true "new" false EmptyString = Raise AttributeError.
Proof.
  eapply (save_unresolved_entry_raises (K := Demo.kernels) Demo.small_host
            (Demo.six "cat" Demo.zwsp) Demo.ones (Demo.q 1) true "new" false
            EmptyString [("cat", Demo.q 1)] Demo.zwsp (Demo.q 1) []).
  - reflexivity.
  - reflexivity.
  - vm_compute. reflexivity.
  - vm_compute. reflexivity.
  - vm_compute. reflexivity.
  - vm_compute. discriminate.
  - intros [e He]. vm_compute in He. discriminate He.
Defined.

Lemma mix_skips_other_dimension_witness :
  exists st first,
    concat_into None (vec Demo.duo) (Demo.q 1) = Ok first /\
    mix_loop (K := Demo.kernels) Demo.small_host true (Demo.six "duo" "wide")
      Demo.ones (seq 0 MAX_NUM_MIX)
      {| vec_size := None; tot_vec := None; results := [] |} = Ok st /\
    tot_vec st = Some first /\
    last (results st) =
      Some ("! Vector size is not compatible, skipping "
            +:+ name_id "wide" (IdStr "[c0de]")).
Proof.
  apply (mix_skips_other_dimension (K := Demo.kernels) Demo.small_host true
           (Demo.six "duo" "wide") Demo.ones
           "duo" (Demo.q 1) "wide" (Demo.q 1)
           "duo" (IdStr "[c0de]") (vec Demo.duo) (Some Demo.duo)
           "wide" (IdStr "[c0de]") (vec Demo.wide) (Some Demo.wide)).
  - reflexivity.
  - reflexivity.
  - vm_compute. reflexivity.
  - vm_compute. reflexivity.
  - vm_compute. reflexivity.
  - vm_compute. discriminate.
Defined.

Lemma mix_single_entry_witness :
  exists st,
    mix_loop (K := Demo.kernels) Demo.small_host false (Demo.six "duo" EmptyString)
      Demo.ones (seq 0 MAX_NUM_MIX)
      {| vec_size := None; tot_vec := None; results := [] |} = Ok st /\
    tot_vec st = Some (scale (vec Demo.duo) (Demo.q 1)).
Proof.
  apply (mix_single_entry (K := Demo.kernels) Demo.small_host false
           (Demo.six "duo" EmptyString) Demo.ones "duo" (Demo.q 1)
           "duo" (IdStr "[c0de]") (vec Demo.duo) (Some Demo.duo)).
  - reflexivity.
  - reflexivity.
  - vm_compute. reflexivity.
  - vm_compute. reflexivity.
  - unfold well_shaped. simpl. repeat constructor.
  - vm_compute. lia.
Defined.

Lemma sum_pads_to_longest_witness :
  exists st tot,
    mix_loop (K := Demo.kernels) Demo.small_host false (Demo.six "cat" "duo")
      Demo.ones (seq 0 MAX_NUM_MIX)
      {| vec_size := None; tot_vec := None; results := [] |} = Ok st /\
    tot_vec st = Some tot /\
    cols tot = 2%nat /\
    shape0 tot = Nat.max (Nat.max 1 1) 2.
Proof.
  apply (sum_pads_to_longest (K := Demo.kernels) Demo.small_host
           (Demo.six "cat" "duo") Demo.ones
           "cat" (Demo.q 1) "duo" (Demo.q 1)
           "cat" (IdInt 0) (unsqueeze [Demo.q 1; Demo.q 0]) None
           "duo" (IdStr "[c0de]") (vec Demo.duo) (Some Demo.duo)).
  - reflexivity.
  - reflexivity.
  - vm_compute. reflexivity.
  - vm_compute. reflexivity.
  - vm_compute. reflexivity.
  - reflexivity.
Defined.

Lemma save_writes_record_witness :
  exists log h' saved,
    do_save (K := Demo.kernels) Demo.small_host (Demo.six "cat" "dog") Demo.ones
      (Demo.q 2) false " new " false "7" = Ok (log, h') /\
    files h' !! save_path (Py.strip " new ") = Some saved /\
    name saved = Py.strip " new " /\
    vec saved = scale (Tensor 2 [[Demo.q 1; Demo.q 1]]) (Demo.q 2) /\
    step saved = Py.int (Py.strip "7").
Proof.
  eapply (save_writes_record (K := Demo.kernels) Demo.small_host
            (Demo.six "cat" "dog") Demo.ones (Demo.q 2) false " new " false "7").
  - vm_compute. discriminate.
  - intros [e He]. vm_compute in He. discriminate He.
  - vm_compute. reflexivity.
  - vm_compute. reflexivity.
  - vm_compute. reflexivity.
Defined.
